(** * Storage booking service: booking admission, status and cancellation

    A shallow embedding of the backend of the storage booking application
    ([storage-booking-backend/src]): the route handlers of [routes/bookings.js]
    and [routes/units.js], the [Booking] and [StorageUnit] models with the
    validators they declare, and the helper functions of the bookings routes.

    Conventions of the embedding.
    - A JavaScript [Date] is its time value, the number of milliseconds since
      the epoch, an integer ([Date := Z]); [<], [>], [>=] on dates and the SQL
      comparisons on the [startDate] / [endDate] columns compare time values.
    - JavaScript numbers that carry money are rationals ([Q]): the arithmetic
      of [calculateTotalCost] is carried out exactly.  Prices come from a
      [DECIMAL(10, 2)] column.
    - Strings are [string] (8-bit characters); case folding is the one of the
      letters [A]-[Z].
    - The database is a record of two tables (lists of rows), the sequence of
      the bookings' primary key, and the wall clock: [clock w n] is the value
      of the [n]-th [new Date()] evaluated since the start.
    - An [async] handler is a [Proc]: a tree of atomic actions on the world
      (one query, or one clock reading) with continuations.  [run] executes a
      handler without interruption; [exec] interleaves several handlers at
      their action boundaries. *)

From Stdlib Require Import ZArith QArith Qround List String Ascii Bool Lia Lqa.
From Stdlib Require Import Permutation.
Import ListNotations.

Open Scope Z_scope.

(** ** Dates and the helpers of [routes/bookings.js] *)

Definition Date := Z.

Definition MS_PER_DAY : Z := 1000 * 60 * 60 * 24.

(** [differenceInDays] of date-fns: the number of full day periods between
    two dates, the fraction truncated towards zero.  The server's time zone is
    taken to have a fixed offset, so that a local day is [MS_PER_DAY] long. *)
Definition differenceInDays (dateLeft dateRight : Date) : Z :=
  Z.quot (dateLeft - dateRight) MS_PER_DAY.

(** [Math.round]: the nearest integer, a tie going up. *)
Definition Math_round (x : Q) : Z := Qfloor (x + (1 # 2)).

Definition calculateTotalCost (startDate endDate : Date) (pricePerDay : Q) : Q :=
  let days := differenceInDays endDate startDate + 1 in
  (inject_Z (Math_round (inject_Z days * pricePerDay * 100)) / 100)%Q.

Inductive BookingStatus : Type :=
| upcoming
| active
| completed
| cancelled.

Definition BookingStatus_eqb (a b : BookingStatus) : bool :=
  match a, b with
  | upcoming, upcoming | active, active
  | completed, completed | cancelled, cancelled => true
  | _, _ => false
  end.

(** [determineBookingStatus] with the value of its [new Date()] made a
    parameter. *)
Definition determineBookingStatus (startDate endDate now : Date) : BookingStatus :=
  if now <? startDate then upcoming
  else if now >? endDate then completed
  else active.

(** ** The date conditions of the two conflict queries *)

(** SQL [x BETWEEN lo AND hi]. *)
Definition between (x lo hi : Date) : bool := (lo <=? x) && (x <=? hi).

(** The [Op.or] of [checkBookingConflict]: [(startDate, endDate)] is the
    candidate range, [(rowStart, rowEnd)] the range of a stored booking. *)
Definition conflictDates (startDate endDate rowStart rowEnd : Date) : bool :=
  between rowStart startDate endDate
  || between rowEnd startDate endDate
  || ((rowStart >=? startDate) && (rowEnd <=? endDate))
  || ((rowStart <=? startDate) && (rowEnd >=? endDate)).

(** The [Op.or] of the query of [GET /api/units/:id/availability]. *)
Definition availabilityDates (start end_ rowStart rowEnd : Date) : bool :=
  between rowStart start end_
  || between rowEnd start end_
  || ((rowStart <=? start) && (rowEnd >=? end_)).

(** The symmetric overlap predicate of two inclusive ranges. *)
Definition overlaps (s1 e1 s2 e2 : Date) : Prop := s1 <= e2 /\ s2 <= e1.

(** ** The models *)

Module StorageUnit.
Record t : Type := mk {
  id : Z;
  name : string;
  size : string;
  location : string;
  pricePerDay : Q;
  isAvailable : bool;
  description : option string
}.
End StorageUnit.

Module Booking.
(** The columns [userEmail] and [notes] are never written by the routes and
    stay null; [updatedAt] is never read. *)
Record t : Type := mk {
  id : Z;
  userName : string;
  unitId : Z;
  startDate : Date;
  endDate : Date;
  totalCost : Q;
  status : BookingStatus;
  createdAt : Date
}.

Definition with_status (s : BookingStatus) (b : t) : t :=
  mk (id b) (userName b) (unitId b) (startDate b) (endDate b)
     (totalCost b) s (createdAt b).
End Booking.

(** ** Strings: case folding and the [ILIKE] operator *)

Definition is_upper (c : ascii) : bool :=
  let n := nat_of_ascii c in ((65 <=? n) && (n <=? 90))%nat.

Definition lower_ascii (c : ascii) : ascii :=
  if is_upper c then ascii_of_nat (nat_of_ascii c + 32) else c.

Fixpoint lower (s : string) : string :=
  match s with
  | EmptyString => EmptyString
  | String c s' => String (lower_ascii c) (lower s')
  end.

(** SQL [s LIKE pattern] with the default escape character: [%] matches any
    run of characters, [_] any one character, a backslash makes the next
    pattern character literal.  A pattern that ends in a lone backslash is an
    error in PostgreSQL; no row is selected then. *)
Fixpoint LIKE (pattern : string) : string -> bool :=
  match pattern with
  | EmptyString =>
      fun s => match s with EmptyString => true | String _ _ => false end
  | String p rest =>
      if (p =? "%")%char then
        fix any (s : string) : bool :=
          LIKE rest s
          || match s with EmptyString => false | String _ s' => any s' end
      else if (p =? "_")%char then
        fun s => match s with
                 | EmptyString => false
                 | String _ s' => LIKE rest s'
                 end
      else if (p =? "\")%char then
        match rest with
        | EmptyString => fun _ => false
        | String q rest' =>
            fun s => match s with
                     | EmptyString => false
                     | String c s' => (c =? q)%char && LIKE rest' s'
                     end
        end
      else
        fun s => match s with
                 | EmptyString => false
                 | String c s' => (c =? p)%char && LIKE rest s'
                 end
  end.

(** [Op.iLike]: PostgreSQL's [ILIKE] folds the case of both sides. *)
Definition ILIKE (s pattern : string) : bool := LIKE (lower pattern) (lower s).

(** Whitespace in the sense of the regular expression class [\s], on 8-bit
    characters. *)
Definition is_space (c : ascii) : bool :=
  let n := nat_of_ascii c in
  ((9 <=? n) && (n <=? 13) || (n =? 32))%nat.

Fixpoint all_space (s : string) : bool :=
  match s with
  | EmptyString => true
  | String c s' => is_space c && all_space s'
  end.

(** ** Validators declared by the [Booking] model *)

Module BookingValidators.
(** [notEmpty]: the value is not made of whitespace only. *)
Definition notEmpty (s : string) : bool := negb (all_space s).

(** [len: [1, 255]]. *)
Definition len (s : string) : bool :=
  let n := String.length s in ((1 <=? n) && (n <=? 255))%nat.

(** [isAfterToday(value)]: throws when [value < new Date()]. *)
Definition isAfterToday (value now : Date) : bool := negb (value <? now).

(** [isAfterStartDate(value)]: throws when [value <= this.startDate]. *)
Definition isAfterStartDate (value startDate : Date) : bool :=
  negb (value <=? startDate).

(** [min: 0] on [totalCost]. *)
Definition min0 (v : Q) : bool := Qle_bool 0 v.

Definition check (ok : bool) (msg : string) : list string :=
  if ok then [] else [msg].

(** All validators run; the messages of those that fail are collected. *)
Definition validate (now : Date) (userName : string)
    (startDate endDate : Date) (totalCost : Q) : list string :=
  check (notEmpty userName) "User name cannot be empty"
  ++ check (len userName) "User name must be between 1 and 255 characters"
  ++ check (isAfterToday startDate now) "Start date cannot be in the past"
  ++ check (isAfterStartDate endDate startDate) "End date must be after start date"
  ++ check (min0 totalCost) "Total cost must be a positive number".
End BookingValidators.

(** ** The world: the two tables and the clock *)

Record World : Type := mkWorld {
  storage_units : list StorageUnit.t;
  bookings : list Booking.t;
  bookings_id_seq : Z;
  clock : nat -> Date;
  ticks : nat
}.

Definition set_bookings (bs : list Booking.t) (w : World) : World :=
  mkWorld (storage_units w) bs (bookings_id_seq w) (clock w) (ticks w).

Definition insert_booking (b : Booking.t) (w : World) : World :=
  mkWorld (storage_units w) (bookings w ++ [b]) (bookings_id_seq w + 1)
          (clock w) (ticks w).

Definition tick (w : World) : World :=
  mkWorld (storage_units w) (bookings w) (bookings_id_seq w) (clock w)
          (S (ticks w)).

(** An atomic action on the world. *)
Definition Action (X : Type) : Type := World -> X * World.

(** [new Date()]. *)
Definition new_Date : Action Date :=
  fun w => (clock w (ticks w), tick w).

(** ** Queries of the persistence layer *)

Definition StorageUnit_findByPk (id : Z) : Action (option StorageUnit.t) :=
  fun w => (find (fun u => StorageUnit.id u =? id) (storage_units w), w).

Definition Booking_findByPk (id : Z) : Action (option Booking.t) :=
  fun w => (find (fun b => Booking.id b =? id) (bookings w), w).

(** [order: [['createdAt', 'DESC']]]. *)
Fixpoint insert_createdAt_desc (b : Booking.t) (l : list Booking.t)
  : list Booking.t :=
  match l with
  | [] => [b]
  | x :: l' =>
      if Booking.createdAt x <? Booking.createdAt b then b :: x :: l'
      else x :: insert_createdAt_desc b l'
  end.

Definition order_createdAt_desc (l : list Booking.t) : list Booking.t :=
  fold_right insert_createdAt_desc [] l.

Definition Booking_findAll (where_ : Booking.t -> bool)
  : Action (list Booking.t) :=
  fun w => (filter where_ (bookings w), w).

Definition Booking_findAll_ordered (where_ : Booking.t -> bool)
  : Action (list Booking.t) :=
  fun w => (order_createdAt_desc (filter where_ (bookings w)), w).

Definition set_status_of (id : Z) (s : BookingStatus) (b : Booking.t)
  : Booking.t :=
  if Booking.id b =? id then Booking.with_status s b else b.

(** [booking.update({ status })]: an [UPDATE] of the row with the booking's
    primary key.  Only the [status] attribute is validated, and it has no
    validator. *)
Definition Booking_update_status (id : Z) (s : BookingStatus) : Action unit :=
  fun w => (tt, set_bookings (map (set_status_of id s) (bookings w)) w).

(** [booking.reload()]: the row read again; it throws when the row is gone. *)
Definition Booking_reload (id : Z) : Action (option Booking.t) :=
  Booking_findByPk id.

(** [Booking.create(values)]: the row is stamped with the time of the save,
    the validators of the model run, and the row is inserted with the next
    value of the primary key's sequence.  A failing validator rejects the
    promise with a [SequelizeValidationError] and nothing is inserted. *)
Definition Booking_create (userName : string) (unitId : Z)
    (startDate endDate : Date) (totalCost : Q) (status : BookingStatus)
  : Action (list string + Booking.t) :=
  fun w =>
    let (stamp, w1) := new_Date w in
    let (now, w2) := new_Date w1 in
    match BookingValidators.validate now userName startDate endDate totalCost with
    | [] =>
        let b := Booking.mk (bookings_id_seq w2) userName unitId startDate
                            endDate totalCost status stamp in
        (inr b, insert_booking b w2)
    | msg :: msgs => (inl (msg :: msgs), w2)
    end.

(** ** Asynchronous handlers *)

Inductive Proc (A : Type) : Type :=
| Ret (a : A)
| Do {X : Type} (action : Action X) (k : X -> Proc A).

Arguments Ret {A} a.
Arguments Do {A X} action k.

Fixpoint bind {A B : Type} (p : Proc A) (f : A -> Proc B) : Proc B :=
  match p with
  | Ret a => f a
  | Do action k => Do action (fun x => bind (k x) f)
  end.

Notation "x <- p ;; q" := (bind p (fun x => q))
  (at level 61, p at next level, right associativity).

Fixpoint mapM {A B : Type} (f : A -> Proc B) (l : list A) : Proc (list B) :=
  match l with
  | [] => Ret []
  | a :: l' => b <- f a ;; bs <- mapM f l' ;; Ret (b :: bs)
  end.

(** A handler run from start to end with nothing in between. *)
Fixpoint run {A : Type} (p : Proc A) (w : World) : A * World :=
  match p with
  | Ret a => (a, w)
  | Do action k => let (x, w') := action w in run (k x) w'
  end.

(** One atomic action of a handler. *)
Definition step {A : Type} (p : Proc A) (w : World) : Proc A * World :=
  match p with
  | Ret a => (Ret a, w)
  | Do action k => let (x, w') := action w in (k x, w')
  end.

Fixpoint replace_nth {A : Type} (n : nat) (a : A) (l : list A) : list A :=
  match l, n with
  | [], _ => []
  | _ :: l', O => a :: l'
  | x :: l', S n' => x :: replace_nth n' a l'
  end.

(** Several handlers in flight: the schedule names, action after action,
    the handler that runs next. *)
Fixpoint exec {A : Type} (schedule : list nat) (pool : list (Proc A))
    (w : World) : list (Proc A) * World :=
  match schedule with
  | [] => (pool, w)
  | i :: schedule' =>
      match nth_error pool i with
      | None => exec schedule' pool w
      | Some p =>
          let (p', w') := step p w in
          exec schedule' (replace_nth i p' pool) w'
      end
  end.

(** ** Responses *)

Inductive ApiError : Type :=
| UnitNotFound              (* 404 'Storage unit not found' *)
| Unavailable               (* 400 'Storage unit is not available for booking' *)
| Conflict                  (* 409 'This unit is already booked for the selected dates' *)
| BookingNotFound           (* 404 'Booking not found' *)
| AlreadyCancelled          (* 400 'Booking is already cancelled' *)
| InvalidTransition         (* 400 'Cannot cancel a completed booking' *)
| DatesRequired             (* 400 'Both startDate and endDate query parameters are required' *)
| InvalidDateFormat         (* 400 'Invalid date format. Use ISO format (YYYY-MM-DD)' *)
| EndNotAfterStart          (* 400 'End date must be after start date' *)
| ValidationError (messages : list string)  (* next(error): SequelizeValidationError *)
| InstanceError.            (* next(error): the reloaded row does not exist *)

(** The status code of each rejection, the [errorHandler] middleware
    included. *)
Definition http_status (e : ApiError) : Z :=
  match e with
  | UnitNotFound | BookingNotFound => 404
  | Conflict => 409
  | InstanceError => 500
  | _ => 400
  end.

Inductive Response (A : Type) : Type :=
| Success (code : Z) (body : A)
| Failure (e : ApiError).

Arguments Success {A} code body.
Arguments Failure {A} e.

(** ** [routes/bookings.js] *)

Definition is_open (s : BookingStatus) : bool :=
  match s with
  | upcoming | active => true
  | completed | cancelled => false
  end.

(** The [where] clause of [checkBookingConflict].  An [excludeBookingId]
    that is absent, or falsy ([0]), adds no condition. *)
Definition conflictWhere (unitId : Z) (startDate endDate : Date)
    (excludeBookingId : option Z) (b : Booking.t) : bool :=
  (Booking.unitId b =? unitId)
  && is_open (Booking.status b)
  && conflictDates startDate endDate (Booking.startDate b) (Booking.endDate b)
  && match excludeBookingId with
     | None => true
     | Some x => if x =? 0 then true else negb (Booking.id b =? x)
     end.

Definition checkBookingConflict (unitId : Z) (startDate endDate : Date)
    (excludeBookingId : option Z) : Action bool :=
  fun w =>
    let (conflictingBookings, w') :=
      Booking_findAll (conflictWhere unitId startDate endDate excludeBookingId) w in
    ((0 <? List.length conflictingBookings)%nat, w').

(** [req.body.validatedData], as left by [validateBookingData]. *)
Record BookingRequest : Type := mkRequest {
  req_userName : string;
  req_unitId : Z;
  req_startDate : Date;
  req_endDate : Date
}.

Record Created : Type := mkCreated {
  created_booking : option Booking.t;   (* the booking read back with its unit *)
  created_bookingId : Z;
  created_userName : string;
  created_unitName : string;
  created_duration : Z;
  created_totalCost : Q;
  created_status : BookingStatus
}.

(** [POST /api/bookings]. *)
Definition post_bookings (validatedData : BookingRequest)
  : Proc (Response Created) :=
  let userName := req_userName validatedData in
  let unitId := req_unitId validatedData in
  let startDate := req_startDate validatedData in
  let endDate := req_endDate validatedData in
  Do (StorageUnit_findByPk unitId) (fun found =>
  match found with
  | None => Ret (Failure UnitNotFound)
  | Some storageUnit =>
      if negb (StorageUnit.isAvailable storageUnit) then Ret (Failure Unavailable)
      else
        Do (checkBookingConflict unitId startDate endDate None) (fun hasConflict =>
        if hasConflict : bool then Ret (Failure Conflict)
        else
          let totalCost :=
            calculateTotalCost startDate endDate
                               (StorageUnit.pricePerDay storageUnit) in
          Do new_Date (fun now =>
          let status := determineBookingStatus startDate endDate now in
          Do (Booking_create userName unitId startDate endDate totalCost status)
             (fun created =>
          match created with
          | inl messages => Ret (Failure (ValidationError messages))
          | inr booking =>
              Do (Booking_findByPk (Booking.id booking)) (fun bookingWithUnit =>
              Ret (Success 201
                     (mkCreated bookingWithUnit (Booking.id booking) userName
                        (StorageUnit.name storageUnit)
                        (differenceInDays endDate startDate + 1)
                        totalCost status)))
          end)))
  end).

(** The [status] query parameter is used only when it is one of the four
    status names. *)
Definition parse_status (status : option string) : option BookingStatus :=
  match status with
  | None => None
  | Some s =>
      if (s =? "upcoming")%string then Some upcoming
      else if (s =? "active")%string then Some active
      else if (s =? "completed")%string then Some completed
      else if (s =? "cancelled")%string then Some cancelled
      else None
  end.

Definition listWhere (userName : string) (status : option string)
    (b : Booking.t) : bool :=
  ILIKE (Booking.userName b) ("%" ++ userName ++ "%")%string
  && match parse_status status with
     | None => true
     | Some s => BookingStatus_eqb (Booking.status b) s
     end.

Record Summary : Type := mkSummary {
  summary_total : nat;
  summary_upcoming : nat;
  summary_active : nat;
  summary_completed : nat;
  summary_cancelled : nat;
  summary_totalValue : Q
}.

Definition count_status (s : BookingStatus) (l : list Booking.t) : nat :=
  List.length (filter (fun b => BookingStatus_eqb (Booking.status b) s) l).

Definition summarise (l : list Booking.t) : Summary :=
  mkSummary (List.length l) (count_status upcoming l) (count_status active l)
    (count_status completed l) (count_status cancelled l)
    (fold_left (fun sum b => (sum + Booking.totalCost b)%Q) l 0%Q).

Record Listing : Type := mkListing {
  listing_bookings : list Booking.t;
  listing_summary : Summary;
  listing_user : string
}.

(** The synchronous start of the callback mapped over the bookings: the
    status a booking should have now; a cancelled booking keeps its status
    and the clock is not read. *)
Definition resolve_status (booking : Booking.t)
  : Proc (Booking.t * BookingStatus) :=
  let currentStatus := Booking.status booking in
  if negb (BookingStatus_eqb currentStatus cancelled) then
    Do new_Date (fun now =>
    Ret (booking,
         determineBookingStatus (Booking.startDate booking)
                                (Booking.endDate booking) now))
  else Ret (booking, currentStatus).

(** The asynchronous rest of the callback: the row is updated when the
    status changed, and read again. *)
Definition persist_status (resolved : Booking.t * BookingStatus)
  : Proc (option Booking.t) :=
  let (booking, newStatus) := resolved in
  if negb (BookingStatus_eqb newStatus (Booking.status booking)) then
    Do (Booking_update_status (Booking.id booking) newStatus) (fun _ =>
    Do (Booking_reload (Booking.id booking)) Ret)
  else Do (Booking_reload (Booking.id booking)) Ret.

Fixpoint all_some {A : Type} (l : list (option A)) : option (list A) :=
  match l with
  | [] => Some []
  | None :: _ => None
  | Some a :: l' =>
      match all_some l' with
      | None => None
      | Some r => Some (a :: r)
      end
  end.

(** [GET /api/bookings].  The callbacks of [Promise.all(bookings.map(...))]
    all start in order, each up to its first [await]; their queries touch
    one row each. *)
Definition get_bookings (userName : string) (status : option string)
  : Proc (Response Listing) :=
  Do (Booking_findAll_ordered (listWhere userName status)) (fun bookings =>
  Do new_Date (fun now =>
  resolved <- mapM resolve_status bookings ;;
  reloaded <- mapM persist_status resolved ;;
  match all_some reloaded with
  | None => Ret (Failure InstanceError)
  | Some updatedBookings =>
      Ret (Success 200
             (mkListing updatedBookings (summarise updatedBookings) userName))
  end)).

(** [GET /api/bookings/:id]. *)
Definition get_booking (bookingId : Z) : Proc (Response Booking.t) :=
  Do (Booking_findByPk bookingId) (fun found =>
  match found with
  | None => Ret (Failure BookingNotFound)
  | Some booking =>
      let currentStatus := Booking.status booking in
      if negb (BookingStatus_eqb currentStatus cancelled) then
        Do new_Date (fun now =>
        let newStatus :=
          determineBookingStatus (Booking.startDate booking)
                                 (Booking.endDate booking) now in
        if negb (BookingStatus_eqb newStatus currentStatus) then
          Do (Booking_update_status (Booking.id booking) newStatus) (fun _ =>
          Do (Booking_reload (Booking.id booking)) (fun reloaded =>
          match reloaded with
          | None => Ret (Failure InstanceError)
          | Some booking' => Ret (Success 200 booking')
          end))
        else Ret (Success 200 booking))
      else Ret (Success 200 booking)
  end).

Record Cancelled : Type := mkCancelled {
  cancelled_bookingId : Z;
  cancelled_previousStatus : BookingStatus;
  cancelled_newStatus : BookingStatus
}.

(** [PUT /api/bookings/:id/cancel].  [previousStatus] is read from the
    instance after [booking.update] has changed it. *)
Definition put_booking_cancel (bookingId : Z) : Proc (Response Cancelled) :=
  Do (Booking_findByPk bookingId) (fun found =>
  match found with
  | None => Ret (Failure BookingNotFound)
  | Some booking =>
      if BookingStatus_eqb (Booking.status booking) cancelled then
        Ret (Failure AlreadyCancelled)
      else if BookingStatus_eqb (Booking.status booking) completed then
        Ret (Failure InvalidTransition)
      else
        Do (Booking_update_status (Booking.id booking) cancelled) (fun _ =>
        let booking' := Booking.with_status cancelled booking in
        Ret (Success 200
               (mkCancelled bookingId (Booking.status booking') cancelled)))
  end).

(** ** [routes/units.js] *)

(** A date query parameter: absent (or empty), not a date, or a date. *)
Inductive QueryDate : Type :=
| QMissing
| QInvalid
| QDate (t : Date).

Definition availabilityWhere (unitId : Z) (start end_ : Date) (b : Booking.t)
  : bool :=
  (Booking.unitId b =? unitId)
  && is_open (Booking.status b)
  && availabilityDates start end_ (Booking.startDate b) (Booking.endDate b).

Record Availability : Type := mkAvailability {
  availability_unitId : Z;
  available : bool;
  availability_startDate : Date;
  availability_endDate : Date;
  conflicts : list Booking.t
}.

(** [GET /api/units/:id/availability]. *)
Definition get_unit_availability (unitId : Z) (startDate endDate : QueryDate)
  : Proc (Response Availability) :=
  match startDate, endDate with
  | QMissing, _ | _, QMissing => Ret (Failure DatesRequired)
  | QInvalid, _ | _, QInvalid => Ret (Failure InvalidDateFormat)
  | QDate start, QDate end_ =>
      if start >=? end_ then Ret (Failure EndNotAfterStart)
      else
        Do (StorageUnit_findByPk unitId) (fun found =>
        match found with
        | None => Ret (Failure UnitNotFound)
        | Some unit_ =>
            Do (Booking_findAll (availabilityWhere unitId start end_))
               (fun conflictingBookings =>
            let isAvailable :=
              StorageUnit.isAvailable unit_
              && (List.length conflictingBookings =? 0)%nat in
            Ret (Success 200
                   (mkAvailability unitId isAvailable start end_
                                   conflictingBookings)))
        end)
  end.

(** ** The claims' vocabulary *)

(** [createBooking], [cancelBooking], ... of the interface: a handler run
    without interruption on a world. *)
Definition createBooking (userName : string) (unitId : Z)
    (startDate endDate : Date) (w : World) : Response Created * World :=
  run (post_bookings (mkRequest userName unitId startDate endDate)) w.

Definition listBookingsForUser (userName : string) (status : option string)
    (w : World) : Response Listing * World :=
  run (get_bookings userName status) w.

Definition getBooking (id : Z) (w : World) : Response Booking.t * World :=
  run (get_booking id) w.

Definition cancelBooking (id : Z) (w : World) : Response Cancelled * World :=
  run (put_booking_cancel id) w.

Definition checkAvailability (unitId : Z) (startDate endDate : Date)
    (w : World) : Response Availability * World :=
  run (get_unit_availability unitId (QDate startDate) (QDate endDate)) w.

(** The matching rule that the comment on the [where] clause of
    [GET /api/bookings] names, a case-insensitive partial match: [needle]
    occurs in [s] when the case of both is folded. *)
Fixpoint occurs_in (needle s : string) : bool :=
  String.prefix needle s
  || match s with
     | EmptyString => false
     | String _ s' => occurs_in needle s'
     end.

Definition occurs_in_ci (needle s : string) : bool :=
  occurs_in (lower needle) (lower s).

(** Every stored booking ends no earlier than it starts. *)
Definition well_ordered (w : World) : Prop :=
  forall b, In b (bookings w) -> Booking.startDate b <= Booking.endDate b.

(** The primary key of the bookings table. *)
Definition unique_ids (w : World) : Prop :=
  NoDup (map Booking.id (bookings w)).

(** The wall clock never runs backwards. *)
Definition monotone_clock (w : World) : Prop :=
  forall n, clock w n <= clock w (S n).

Definition lookup_unit (w : World) (id : Z) : option StorageUnit.t :=
  fst (StorageUnit_findByPk id w).

Definition lookup_booking (w : World) (id : Z) : option Booking.t :=
  fst (Booking_findByPk id w).

(** The two readings of the clock made while a booking is admitted: by
    [determineBookingStatus], and by the validator [isAfterToday] when the
    new row is saved (the time stamp of the row is read in between). *)
Definition status_time (w : World) : Date := clock w (ticks w).

Definition validation_time (w : World) : Date := clock w (S (S (ticks w))).

(** A stored booking that stands in the way of the range [startDate, endDate]
    on unit [unitId]: same unit, status upcoming or active, overlapping
    range. *)
Definition conflicting (w : World) (unitId : Z) (startDate endDate : Date)
    (b : Booking.t) : Prop :=
  In b (bookings w)
  /\ Booking.unitId b = unitId
  /\ (Booking.status b = upcoming \/ Booking.status b = active)
  /\ overlaps startDate endDate (Booking.startDate b) (Booking.endDate b).

(** The row that an admitted request inserts. *)
Definition admitted_row (userName : string) (unitId : Z)
    (startDate endDate : Date) (u : StorageUnit.t) (w : World) : Booking.t :=
  Booking.mk (bookings_id_seq w) userName unitId startDate endDate
    (calculateTotalCost startDate endDate (StorageUnit.pricePerDay u))
    (determineBookingStatus startDate endDate (status_time w))
    (clock w (S (ticks w))).

(** Every unit has a non-negative daily price (validator [min: 0] of the
    [StorageUnit] model). *)
Definition priced (w : World) : Prop :=
  forall u, In u (storage_units w) -> (0 <= StorageUnit.pricePerDay u)%Q.

(** The characters with a meaning of their own in a [LIKE] pattern. *)
Definition is_wildcard (c : ascii) : bool :=
  ((c =? "%") || (c =? "_") || (c =? "\"))%char.

Fixpoint wildcard_free (s : string) : bool :=
  match s with
  | EmptyString => true
  | String c s' => negb (is_wildcard c) && wildcard_free s'
  end.

(** What the store keeps true: ranges are well ordered, ids are unique and
    below the next value of the sequence. *)
Definition store_ok (w : World) : Prop :=
  well_ordered w
  /\ unique_ids w
  /\ (forall b, In b (bookings w) -> Booking.id b < bookings_id_seq w).

(** Every action of a handler, whatever the answers it continues with,
    keeps [P] true. *)
Fixpoint keeps {A : Type} (P : World -> Prop) (p : Proc A) : Prop :=
  match p with
  | Ret _ => True
  | Do action k =>
      (forall w, P w -> P (snd (action w))) /\ (forall x, keeps P (k x))
  end.

(** ** [utils/validation.js] *)

(** A value of a JSON body or of a parsed query string.  [JsObject] stands
    for arrays and objects, which are truthy and are neither strings nor
    numbers. *)
Inductive JsValue : Type :=
| JsUndefined
| JsNull
| JsBool (b : bool)
| JsNumber (q : Q)
| JsString (s : string)
| JsObject.

Definition truthy (v : JsValue) : bool :=
  match v with
  | JsUndefined | JsNull => false
  | JsBool b => b
  | JsNumber q => negb (Qeq_bool q 0)
  | JsString s => negb (s =? "")%string
  | JsObject => true
  end.

(** [String.prototype.trim], on the white space of the 8-bit alphabet. *)
Fixpoint trimStart (s : string) : string :=
  match s with
  | EmptyString => EmptyString
  | String c s' => if is_space c then trimStart s' else s
  end.

Fixpoint trimEnd (s : string) : string :=
  match s with
  | EmptyString => EmptyString
  | String c s' =>
      match trimEnd s' with
      | EmptyString => if is_space c then EmptyString else String c EmptyString
      | String d r => String c (String d r)
      end
  end.

Definition trim (s : string) : string := trimEnd (trimStart s).

(** [Number.isInteger] on a number of a JSON body. *)
Definition Number_isInteger (v : JsValue) : bool :=
  match v with
  | JsNumber q => Qeq_bool (inject_Z (Qfloor q)) q
  | _ => false
  end.

(** [Math.ceil]. *)
Definition Math_ceil (x : Q) : Z := Qceiling x.

(** [new Date(y, m, d)] for the year, month and day of [now]: midnight of
    the local day of [now], the local time being [tz] milliseconds ahead of
    UTC. *)
Definition startOfDay (tz : Z) (now : Date) : Date :=
  now - (now + tz) mod MS_PER_DAY.

Inductive RequestError : Type :=
| MissingFields            (* 400 'Missing required fields' *)
| UserNameNotString        (* 400 'userName must be a non-empty string' *)
| UserNameTooLong          (* 400 'userName must be less than 255 characters' *)
| UnitIdNotPositive        (* 400 'unitId must be a positive integer' *)
| DateFormat               (* 400 'Invalid date format. ...' *)
| EndBeforeStart           (* 400 'End date must be after start date' *)
| StartInPast              (* 400 'Start date cannot be in the past' *)
| PeriodTooLong            (* 400 'Booking period cannot exceed 365 days' *)
| UserNameRequired.        (* 400 'userName query parameter is required ...' *)

(** [req.body] of [POST /api/bookings]; each date field is the field as
    [new Date] reads it: falsy, not a date, or a date. *)
Record BookingBody : Type := mkBody {
  body_userName : JsValue;
  body_unitId : JsValue;
  body_startDate : QueryDate;
  body_endDate : QueryDate
}.

Definition is_missing (d : QueryDate) : bool :=
  match d with
  | QMissing => true
  | _ => false
  end.

(** The number of days that [validateBookingData] compares with
    [maxBookingDays]. *)
Definition bookingDays (start end_ : Date) : Z :=
  Math_ceil (inject_Z (end_ - start) / inject_Z MS_PER_DAY).

(** [validateBookingData]: the rejection, or [validatedData] with its
    [bookingDays]; [now] is the value of its [new Date()]. *)
Definition validateBookingData (tz : Z) (now : Date) (body : BookingBody)
  : RequestError + (BookingRequest * Z) :=
  if negb (truthy (body_userName body)) || negb (truthy (body_unitId body))
     || is_missing (body_startDate body) || is_missing (body_endDate body)
  then inl MissingFields
  else
    match body_userName body with
    | JsString userName =>
        if (String.length (trim userName) =? 0)%nat then inl UserNameNotString
        else if (255 <? String.length (trim userName))%nat
        then inl UserNameTooLong
        else
          match body_unitId body with
          | JsNumber unitId =>
              if negb (Number_isInteger (JsNumber unitId))
                 || Qle_bool unitId 0
              then inl UnitIdNotPositive
              else
                match body_startDate body, body_endDate body with
                | QDate start, QDate end_ =>
                    let today := startOfDay tz now in
                    if start >=? end_ then inl EndBeforeStart
                    else if start <? today then inl StartInPast
                    else if bookingDays start end_ >? 365 then inl PeriodTooLong
                    else inr (mkRequest (trim userName) (Qfloor unitId) start end_,
                              bookingDays start end_)
                | _, _ => inl DateFormat
                end
          | _ => inl UnitIdNotPositive
          end
    | _ => inl UserNameNotString
    end.


(** [input.replace(/[<>]/g, '')]. *)
Fixpoint remove_angle_brackets (s : string) : string :=
  match s with
  | EmptyString => EmptyString
  | String c s' =>
      if ((c =? "<") || (c =? ">"))%char then remove_angle_brackets s'
      else String c (remove_angle_brackets s')
  end.

Definition sanitizeInput (input : string) : string :=
  String.substring 0 1000 (remove_angle_brackets (trim input)).

(** ** The rate limiter of [middleware/errorHandler.js] *)

Record ClientRecord : Type := mkClientRecord {
  rl_count : nat;
  rl_resetTime : Z
}.

(** The [Map] [requestCounts], from client ids to records; the order of its
    entries has no effect on the middleware. *)
Definition RequestCounts : Type := string -> option ClientRecord.

Definition Map_empty : RequestCounts := fun _ => None.

Definition Map_get (k : string) (m : RequestCounts) : option ClientRecord :=
  m k.

Definition Map_set (k : string) (v : ClientRecord) (m : RequestCounts)
  : RequestCounts :=
  fun k' => if (k' =? k)%string then Some v else m k'.

(** The loop that deletes the entries whose window is over. *)
Definition cleanUp (now : Z) (m : RequestCounts) : RequestCounts :=
  fun k =>
    match m k with
    | None => None
    | Some v => if now >? rl_resetTime v then None else Some v
    end.

(** One request through [basicRateLimit(maxRequests, windowMs)]: [true]
    when [next()] is called, [false] when the answer is 429. *)
Definition basicRateLimit (maxRequests : nat) (windowMs : Z)
    (clientId : string) (now : Z) (requestCounts : RequestCounts)
  : bool * RequestCounts :=
  let cleaned := cleanUp now requestCounts in
  let fresh := mkClientRecord 0 (now + windowMs) in
  let (clientRecord, counts) :=
    match Map_get clientId cleaned with
    | None => (fresh, Map_set clientId fresh cleaned)
    | Some r =>
        if now >? rl_resetTime r then (fresh, Map_set clientId fresh cleaned)
        else (r, cleaned)
    end in
  if (maxRequests <=? rl_count clientRecord)%nat then (false, counts)
  else
    (true,
     Map_set clientId
       (mkClientRecord (S (rl_count clientRecord)) (rl_resetTime clientRecord))
       counts).

(** The requests of one client at the times [times], one after the other:
    which of them pass, and the map left behind. *)
Fixpoint rateLimit_all (maxRequests : nat) (windowMs : Z) (clientId : string)
    (times : list Z) (m : RequestCounts) : list bool * RequestCounts :=
  match times with
  | [] => ([], m)
  | now :: times' =>
      let (passed, m1) := basicRateLimit maxRequests windowMs clientId now m in
      let (rest, m2) := rateLimit_all maxRequests windowMs clientId times' m1 in
      (passed :: rest, m2)
  end.

(** ** [GET /api/units/:id] *)

Record UnitDetails : Type := mkUnitDetails {
  details_unit : StorageUnit.t;
  details_bookings : list Booking.t
}.

(** [StorageUnit.findByPk] with the unit's bookings of status upcoming or
    active included ([required: false]): one query. *)
Definition StorageUnit_findByPk_with_bookings (id : Z)
  : Action (option UnitDetails) :=
  fun w =>
    (match find (fun u => StorageUnit.id u =? id) (storage_units w) with
     | None => None
     | Some u =>
         Some (mkUnitDetails u
                 (filter (fun b => (Booking.unitId b =? StorageUnit.id u)
                                   && is_open (Booking.status b))
                         (bookings w)))
     end, w).

Definition get_unit (unitId : Z) : Proc (Response UnitDetails) :=
  Do (StorageUnit_findByPk_with_bookings unitId) (fun found =>
  match found with
  | None => Ret (Failure UnitNotFound)
  | Some unit_ => Ret (Success 200 unit_)
  end).

(** ** The pages of the frontend *)



(** ** Vocabulary of the further properties *)

(** The order in which time moves a status. *)
Definition status_rank (s : BookingStatus) : Z :=
  match s with
  | upcoming => 0
  | active => 1
  | completed => 2
  | cancelled => 3
  end.

(** Two rows that differ in their status at most. *)
Definition same_but_status (b b' : Booking.t) : Prop :=
  b' = Booking.with_status (Booking.status b') b.


(** The world [w] is [w0] but for the status of its bookings. *)
Definition status_changes_only (w0 w : World) : Prop :=
  Forall2 same_but_status (bookings w0) (bookings w)
  /\ storage_units w = storage_units w0
  /\ bookings_id_seq w = bookings_id_seq w0.

(** ** Theorems on the pure helpers *)

Lemma between_spec (x lo hi : Date) :
  between x lo hi = true <-> lo <= x <= hi.
Proof.
  unfold between. rewrite andb_true_iff, !Z.leb_le. tauto.
Qed.

Lemma conflictDates_spec (s1 e1 s2 e2 : Date) :
  conflictDates s1 e1 s2 e2 = true <->
  (s1 <= s2 <= e1) \/ (s1 <= e2 <= e1) \/ (s2 >= s1 /\ e2 <= e1)
  \/ (s2 <= s1 /\ e2 >= e1).
Proof.
  unfold conflictDates.
  rewrite !orb_true_iff, !andb_true_iff, !between_spec,
    !Z.geb_le, !Z.leb_le.
  lia.
Qed.

Lemma availabilityDates_spec (s1 e1 s2 e2 : Date) :
  availabilityDates s1 e1 s2 e2 = true <->
  (s1 <= s2 <= e1) \/ (s1 <= e2 <= e1) \/ (s2 <= s1 /\ e2 >= e1).
Proof.
  unfold availabilityDates.
  rewrite !orb_true_iff, !andb_true_iff, !between_spec,
    !Z.geb_le, !Z.leb_le.
  lia.
Qed.

(** Overlapping ranges always satisfy both disjunctions, whatever the order
    of the end points of each range. *)
Lemma overlaps_conflictDates (s1 e1 s2 e2 : Date) :
  overlaps s1 e1 s2 e2 -> conflictDates s1 e1 s2 e2 = true.
Proof.
  unfold overlaps. rewrite conflictDates_spec. lia.
Qed.

Lemma overlaps_availabilityDates (s1 e1 s2 e2 : Date) :
  overlaps s1 e1 s2 e2 -> availabilityDates s1 e1 s2 e2 = true.
Proof.
  unfold overlaps. rewrite availabilityDates_spec. lia.
Qed.

(** The converse needs both ranges to be well ordered. *)
Lemma conflictDates_overlaps (s1 e1 s2 e2 : Date) :
  s2 <= e2 -> s1 <= e1 -> conflictDates s1 e1 s2 e2 = true -> overlaps s1 e1 s2 e2.
Proof.
  unfold overlaps. rewrite conflictDates_spec. lia.
Qed.

Lemma availabilityDates_overlaps (s1 e1 s2 e2 : Date) :
  s2 <= e2 -> s1 <= e1 -> availabilityDates s1 e1 s2 e2 = true -> overlaps s1 e1 s2 e2.
Proof.
  unfold overlaps. rewrite availabilityDates_spec. lia.
Qed.

(** C1. For inclusive ranges [s1, e1] (candidate) and [s2, e2] (stored
    booking), each with start <= end, the four-clause disjunction of
    [checkBookingConflict] holds exactly when [s1 <= e2] and [s2 <= e1], and
    so does the three-clause disjunction of the availability endpoint. *)
Theorem overlap_clauses_equivalent (s1 e1 s2 e2 : Date) :
  s1 <= e1 -> s2 <= e2 ->
  (conflictDates s1 e1 s2 e2 = true <-> s1 <= e2 /\ s2 <= e1) /\
  (availabilityDates s1 e1 s2 e2 = true <-> s1 <= e2 /\ s2 <= e1).
Proof.
  intros H1 H2.
  rewrite conflictDates_spec, availabilityDates_spec. lia.
Qed.

Lemma overlap_clauses_equivalent_witness :
  (conflictDates 10 20 15 30 = true <-> 10 <= 30 /\ 15 <= 20) /\
  (availabilityDates 10 20 15 30 = true <-> 10 <= 30 /\ 15 <= 20).
Proof.
  apply (overlap_clauses_equivalent 10 20 15 30); lia.
Defined.

(** ** The total cost *)

Lemma differenceInDays_ordered (startDate endDate : Date) :
  startDate <= endDate ->
  differenceInDays endDate startDate = (endDate - startDate) / MS_PER_DAY
  /\ 0 <= differenceInDays endDate startDate.
Proof.
  intros H. unfold differenceInDays.
  assert (HM : 0 < MS_PER_DAY) by (unfold MS_PER_DAY; lia).
  rewrite Z.quot_div_nonneg by lia.
  split; [reflexivity | apply Z.div_pos; lia].
Qed.

Lemma Qdiv_100 (x : Q) : x / 100 == x * (1 # 100).
Proof. field. Qed.



Lemma Math_round_nonneg (x : Q) : (0 <= x)%Q -> 0 <= Math_round x.
Proof.
  intros H. unfold Math_round.
  change 0 with (Qfloor 0). apply Qfloor_resp_le. lra.
Qed.



(** ** The status resolver *)

(** C4. The status resolver is a function of (startDate, endDate, now): it
    returns upcoming when now < startDate; otherwise completed when
    now > endDate; otherwise, when startDate <= now <= endDate, active; for a
    range with startDate <= endDate it returns completed whenever
    now > endDate; and it returns cancelled for no input. *)
Theorem determineBookingStatus_spec (startDate endDate now : Date) :
  (now < startDate -> determineBookingStatus startDate endDate now = upcoming)
  /\ (startDate <= now -> now > endDate ->
      determineBookingStatus startDate endDate now = completed)
  /\ (startDate <= now <= endDate ->
      determineBookingStatus startDate endDate now = active)
  /\ (startDate <= endDate -> now > endDate ->
      determineBookingStatus startDate endDate now = completed)
  /\ determineBookingStatus startDate endDate now <> cancelled.
Proof.
  unfold determineBookingStatus.
  destruct (now <? startDate) eqn:Hs; [apply Z.ltb_lt in Hs | apply Z.ltb_ge in Hs];
    (destruct (now >? endDate) eqn:He;
     [apply Z.gtb_lt in He | rewrite Z.gtb_ltb in He; apply Z.ltb_ge in He]);
    repeat split; intros; try reflexivity; try discriminate; lia.
Qed.

Lemma determineBookingStatus_spec_witness :
  determineBookingStatus 10 20 5 = upcoming
  /\ determineBookingStatus 10 20 25 = completed
  /\ determineBookingStatus 10 20 15 = active.
Proof.
  destruct (determineBookingStatus_spec 10 20 5) as (H1 & _).
  destruct (determineBookingStatus_spec 10 20 25) as (_ & H2 & _).
  destruct (determineBookingStatus_spec 10 20 15) as (_ & _ & H3 & _).
  split; [apply H1; lia |]. split; [apply H2; lia | apply H3; lia].
Defined.

(** ** Rows and their primary key *)

Lemma lookup_booking_id (w : World) (id : Z) (b : Booking.t) :
  lookup_booking w id = Some b -> In b (bookings w) /\ Booking.id b = id.
Proof.
  unfold lookup_booking, Booking_findByPk. simpl. intros H.
  apply find_some in H. destruct H as [Hin Heq].
  apply Z.eqb_eq in Heq. auto.
Qed.


Lemma lookup_unique (w : World) (b : Booking.t) :
  unique_ids w -> In b (bookings w) -> lookup_booking w (Booking.id b) = Some b.
Proof.
  unfold unique_ids, lookup_booking, Booking_findByPk. simpl.
  induction (bookings w) as [| x l IH]; simpl; intros Hnd Hin; [contradiction |].
  inversion Hnd as [| ? ? Hx Hl]; subst.
  destruct Hin as [-> | Hin].
  - rewrite Z.eqb_refl. reflexivity.
  - destruct (Booking.id x =? Booking.id b) eqn:E.
    + apply Z.eqb_eq in E. exfalso. apply Hx. rewrite E.
      apply in_map. exact Hin.
    + apply IH; assumption.
Qed.

Lemma id_set_status_of (id : Z) (s : BookingStatus) (b : Booking.t) :
  Booking.id (set_status_of id s b) = Booking.id b.
Proof.
  unfold set_status_of. destruct (Booking.id b =? id); reflexivity.
Qed.

Lemma find_update_same (id : Z) (s : BookingStatus) (l : list Booking.t) :
  find (fun b => Booking.id b =? id) (map (set_status_of id s) l)
  = option_map (Booking.with_status s) (find (fun b => Booking.id b =? id) l).
Proof.
  induction l as [| x l IH]; [reflexivity |].
  cbn [map find]. rewrite id_set_status_of.
  destruct (Booking.id x =? id) eqn:E; [| exact IH].
  unfold set_status_of. rewrite E. reflexivity.
Qed.

Lemma find_update_other (i id : Z) (s : BookingStatus) (l : list Booking.t) :
  i <> id ->
  find (fun b => Booking.id b =? i) (map (set_status_of id s) l)
  = find (fun b => Booking.id b =? i) l.
Proof.
  intros Hne. induction l as [| x l IH]; [reflexivity |].
  cbn [map find]. rewrite id_set_status_of.
  destruct (Booking.id x =? i) eqn:Ei; [| exact IH].
  apply Z.eqb_eq in Ei. unfold set_status_of.
  assert (En : (Booking.id x =? id) = false) by (apply Z.eqb_neq; lia).
  rewrite En. reflexivity.
Qed.

Lemma in_update_other (id : Z) (s : BookingStatus) (l : list Booking.t)
    (x : Booking.t) :
  In x l -> Booking.id x <> id -> In x (map (set_status_of id s) l).
Proof.
  intros Hin Hne. apply in_map_iff. exists x. split; [| exact Hin].
  unfold set_status_of. apply Z.eqb_neq in Hne. rewrite Hne. reflexivity.
Qed.

Lemma Booking_update_status_bookings (id : Z) (s : BookingStatus) (w : World) :
  bookings (snd (Booking_update_status id s w))
  = map (set_status_of id s) (bookings w).
Proof. reflexivity. Qed.

(** ** Cancellation *)

Lemma cancelBooking_eq (id : Z) (w : World) :
  cancelBooking id w =
  match lookup_booking w id with
  | None => (Failure BookingNotFound, w)
  | Some b =>
      match Booking.status b with
      | cancelled => (Failure AlreadyCancelled, w)
      | completed => (Failure InvalidTransition, w)
      | upcoming | active =>
          (Success 200 (mkCancelled id cancelled cancelled),
           snd (Booking_update_status (Booking.id b) cancelled w))
      end
  end.
Proof.
  unfold cancelBooking, put_booking_cancel, lookup_booking.
  cbn [run]. unfold Booking_findByPk. cbn [fst].
  destruct (find _ (bookings w)) as [b |]; [| reflexivity].
  destruct (Booking.status b); reflexivity.
Qed.



(** C7. A successful cancellation changes only the status of the booking:
    for a booking with status upcoming or active, after [cancelBooking] its
    unitId, userName, startDate, endDate and totalCost (and its id and
    creation time) are what they were, its status is cancelled, and every
    other booking and every unit is untouched. *)
Theorem cancelBooking_frame (id : Z) (w : World) (b : Booking.t) :
  lookup_booking w id = Some b ->
  Booking.status b = upcoming \/ Booking.status b = active ->
  let w' := snd (cancelBooking id w) in
  exists b',
    lookup_booking w' id = Some b'
    /\ Booking.status b' = cancelled
    /\ Booking.unitId b' = Booking.unitId b
    /\ Booking.userName b' = Booking.userName b
    /\ Booking.startDate b' = Booking.startDate b
    /\ Booking.endDate b' = Booking.endDate b
    /\ Booking.totalCost b' = Booking.totalCost b
    /\ Booking.id b' = Booking.id b
    /\ Booking.createdAt b' = Booking.createdAt b
    /\ (forall x, In x (bookings w) -> Booking.id x <> id -> In x (bookings w'))
    /\ List.length (bookings w') = List.length (bookings w)
    /\ storage_units w' = storage_units w.
Proof.
  intros Hb Hs w'.
  destruct (lookup_booking_id _ _ _ Hb) as [_ Hid].
  assert (Hw : w' = snd (Booking_update_status id cancelled w)).
  { unfold w'. rewrite cancelBooking_eq, Hb, Hid.
    destruct Hs as [Hs | Hs]; rewrite Hs; reflexivity. }
  exists (Booking.with_status cancelled b).
  rewrite Hw. unfold lookup_booking, Booking_findByPk in *. cbn [fst] in *.
  rewrite Booking_update_status_bookings, find_update_same, Hb.
  repeat (split; [reflexivity |]).
  split; [| split; [apply length_map | reflexivity]].
  intros x Hin Hne. apply in_update_other; assumption.
Qed.

Lemma cancelBooking_frame_witness :
  let b := Booking.mk 1 "Test User" 1 86400000 1296000000 375 active 1001 in
  let w := mkWorld [] [b] 2 (fun n => 1000 + Z.of_nat n) 0 in
  lookup_booking w 1 = Some b
  /\ (Booking.status b = upcoming \/ Booking.status b = active)
  /\ exists b',
       lookup_booking (snd (cancelBooking 1 w)) 1 = Some b'
       /\ Booking.status b' = cancelled
       /\ Booking.totalCost b' = Booking.totalCost b.
Proof.
  intros b w.
  assert (Hb : lookup_booking w 1 = Some b) by reflexivity.
  assert (Hs : Booking.status b = upcoming \/ Booking.status b = active)
    by (right; reflexivity).
  split; [exact Hb |]. split; [exact Hs |].
  destruct (cancelBooking_frame 1 w b Hb Hs)
    as (b' & H1 & H2 & _ & _ & _ & _ & H7 & _).
  exists b'. auto.
Defined.

(** ** Queries that select nothing *)

Lemma filter_empty_iff {A : Type} (f : A -> bool) (l : list A) :
  (List.length (filter f l) =? 0)%nat = true <->
  (forall a, In a l -> f a = false).
Proof.
  rewrite Nat.eqb_eq, length_zero_iff_nil. split.
  - intros H a Hin. destruct (f a) eqn:E; [| reflexivity].
    assert (Hf : In a (filter f l)) by (apply filter_In; auto).
    rewrite H in Hf. contradiction.
  - intros H. induction l as [| x l IH]; [reflexivity |].
    simpl. rewrite (H x (or_introl eq_refl)).
    apply IH. intros a Ha. apply H. right. exact Ha.
Qed.

Lemma filter_nonempty {A : Type} (f : A -> bool) (l : list A) (a : A) :
  In a l -> f a = true -> (0 <? List.length (filter f l))%nat = true.
Proof.
  intros Hin Hf. apply Nat.ltb_lt.
  assert (H : In a (filter f l)) by (apply filter_In; auto).
  destruct (filter f l); [contradiction | simpl; lia].
Qed.

Lemma is_open_iff (s : BookingStatus) :
  is_open s = true <-> s = upcoming \/ s = active.
Proof.
  destruct s; simpl; split; intros H; auto;
    try discriminate; destruct H; discriminate.
Qed.

Lemma availabilityWhere_iff (w : World) (unitId : Z) (startDate endDate : Date)
    (b : Booking.t) :
  startDate <= endDate -> well_ordered w -> In b (bookings w) ->
  (availabilityWhere unitId startDate endDate b = true <->
   conflicting w unitId startDate endDate b).
Proof.
  intros Hse Hwo Hin. unfold availabilityWhere, conflicting.
  rewrite !andb_true_iff, Z.eqb_eq, is_open_iff. split.
  - intros [[Hu Hs] Hd]. repeat split; auto;
      apply (availabilityDates_overlaps _ _ _ _ (Hwo b Hin) Hse Hd).
  - intros (_ & Hu & Hs & Ho). repeat split; auto.
    apply overlaps_availabilityDates. exact Ho.
Qed.

Lemma conflictWhere_iff (w : World) (unitId : Z) (startDate endDate : Date)
    (b : Booking.t) :
  startDate <= endDate -> well_ordered w -> In b (bookings w) ->
  (conflictWhere unitId startDate endDate None b = true <->
   conflicting w unitId startDate endDate b).
Proof.
  intros Hse Hwo Hin. unfold conflictWhere, conflicting.
  rewrite !andb_true_iff, Z.eqb_eq, is_open_iff. split.
  - intros [[[Hu Hs] Hd] _]. repeat split; auto;
      apply (conflictDates_overlaps _ _ _ _ (Hwo b Hin) Hse Hd).
  - intros (_ & Hu & Hs & Ho). repeat split; auto.
    apply overlaps_conflictDates. exact Ho.
Qed.

(** ** Availability of a unit *)

Lemma checkAvailability_eq (unitId : Z) (startDate endDate : Date) (w : World) :
  startDate < endDate ->
  checkAvailability unitId startDate endDate w =
  match lookup_unit w unitId with
  | None => (Failure UnitNotFound, w)
  | Some u =>
      let found :=
        filter (availabilityWhere unitId startDate endDate) (bookings w) in
      (Success 200
         (mkAvailability unitId
            (StorageUnit.isAvailable u && (List.length found =? 0)%nat)
            startDate endDate found), w)
  end.
Proof.
  intros H. unfold checkAvailability, get_unit_availability, lookup_unit.
  assert (E : (startDate >=? endDate) = false)
    by (rewrite Z.geb_leb; apply Z.leb_gt; exact H).
  rewrite E. cbn [run]. unfold StorageUnit_findByPk. cbn [fst].
  destruct (find _ (storage_units w)); reflexivity.
Qed.

(** C8. For an existing unit and a range with startDate < endDate,
    [checkAvailability] answers with available = false whenever the unit's
    isAvailable flag is false, whatever the conflicts; and, the stored
    bookings being well ordered, available = true exactly when the flag is
    true and no booking of the unit with status upcoming or active overlaps
    the range.  The conflicts listed are those bookings. *)
Theorem checkAvailability_spec (unitId : Z) (startDate endDate : Date)
    (w : World) (u : StorageUnit.t) :
  lookup_unit w unitId = Some u ->
  startDate < endDate ->
  exists body,
    checkAvailability unitId startDate endDate w = (Success 200 body, w)
    /\ (StorageUnit.isAvailable u = false -> available body = false)
    /\ (well_ordered w ->
        (available body = true <->
         StorageUnit.isAvailable u = true
         /\ forall b, ~ conflicting w unitId startDate endDate b)
        /\ (forall b, In b (conflicts body) <->
                      conflicting w unitId startDate endDate b)).
Proof.
  intros Hu Hse. rewrite (checkAvailability_eq _ _ _ _ Hse), Hu.
  eexists. split; [reflexivity |]. cbn [available conflicts].
  split.
  - intros Hf. rewrite Hf. reflexivity.
  - intros Hwo.
    assert (Hin : forall b,
               In b (filter (availabilityWhere unitId startDate endDate)
                            (bookings w))
               <-> conflicting w unitId startDate endDate b).
    { intros b. rewrite filter_In. split.
      - intros [Hb Hc].
        apply (availabilityWhere_iff w unitId startDate endDate b); auto; lia.
      - intros Hc. assert (Hb : In b (bookings w)) by apply Hc.
        split; [exact Hb |].
        apply (availabilityWhere_iff w unitId startDate endDate b); auto; lia. }
    split; [| exact Hin].
    rewrite andb_true_iff, Nat.eqb_eq, length_zero_iff_nil.
    split.
    + intros [Ha Hnil]. split; [exact Ha |].
      intros b Hc. apply Hin in Hc. rewrite Hnil in Hc. contradiction.
    + intros [Ha Hnone]. split; [exact Ha |].
      destruct (filter _ (bookings w)) as [| b l] eqn:E; [reflexivity |].
      exfalso. apply (Hnone b). apply Hin. left. reflexivity.
Qed.

Lemma checkAvailability_spec_witness :
  let u := StorageUnit.mk 9 "Premium Unit G9" "15x15 ft" "Uptown" 45 false None in
  let w := mkWorld [u] [] 1 (fun n => 1000 + Z.of_nat n) 0 in
  lookup_unit w 9 = Some u /\ 1709251200000 < 1710460800000
  /\ exists body,
       checkAvailability 9 1709251200000 1710460800000 w = (Success 200 body, w)
       /\ available body = false /\ conflicts body = [].
Proof.
  intros u w.
  assert (Hu : lookup_unit w 9 = Some u) by reflexivity.
  assert (Hse : 1709251200000 < 1710460800000) by lia.
  split; [exact Hu |]. split; [exact Hse |].
  destruct (checkAvailability_spec 9 1709251200000 1710460800000 w u Hu Hse)
    as (body & Heq & Hfalse & _).
  exists body. split; [exact Heq |]. split; [apply Hfalse; reflexivity |].
  injection Heq as Hbody. rewrite <- Hbody. reflexivity.
Defined.

(** ** Booking admission *)

Lemma calculateTotalCost_nonneg (startDate endDate : Date) (pricePerDay : Q) :
  startDate <= endDate -> (0 <= pricePerDay)%Q ->
  (0 <= calculateTotalCost startDate endDate pricePerDay)%Q.
Proof.
  intros Hord Hprice. unfold calculateTotalCost. cbv zeta.
  destruct (differenceInDays_ordered startDate endDate Hord) as [_ Hd0].
  set (days := differenceInDays endDate startDate + 1).
  assert (Hx : (0 <= inject_Z days * pricePerDay)%Q).
  { apply Qmult_le_0_compat; [| exact Hprice].
    change 0%Q with (inject_Z 0). rewrite <- Zle_Qle. unfold days. lia. }
  assert (Hr : 0 <= Math_round (inject_Z days * pricePerDay * 100)).
  { apply Math_round_nonneg.
    set (y := (inject_Z days * pricePerDay)%Q) in *. clearbody y. lra. }
  rewrite Zle_Qle in Hr. change (inject_Z 0) with 0%Q in Hr.
  rewrite Qdiv_100.
  set (n := inject_Z (Math_round (inject_Z days * pricePerDay * 100))) in *.
  clearbody n. lra.
Qed.

Lemma validate_cases (now : Date) (userName : string)
    (startDate endDate : Date) (totalCost : Q) :
  BookingValidators.notEmpty userName = true ->
  BookingValidators.len userName = true ->
  startDate < endDate -> (0 <= totalCost)%Q ->
  BookingValidators.validate now userName startDate endDate totalCost
  = if startDate <? now then ["Start date cannot be in the past"%string] else [].
Proof.
  intros Hne Hlen Hse Hc. unfold BookingValidators.validate.
  rewrite Hne, Hlen.
  assert (E1 : BookingValidators.isAfterStartDate endDate startDate = true).
  { unfold BookingValidators.isAfterStartDate.
    apply negb_true_iff, Z.leb_gt. exact Hse. }
  assert (E2 : BookingValidators.min0 totalCost = true)
    by (apply Qle_bool_iff; exact Hc).
  rewrite E1, E2. unfold BookingValidators.isAfterToday.
  destruct (startDate <? now); reflexivity.
Qed.

Lemma createBooking_eq (userName : string) (unitId : Z)
    (startDate endDate : Date) (w : World) :
  let result := createBooking userName unitId startDate endDate w in
  match lookup_unit w unitId with
  | None => result = (Failure UnitNotFound, w)
  | Some u =>
      if negb (StorageUnit.isAvailable u) then result = (Failure Unavailable, w)
      else if (0 <? List.length
                      (filter (conflictWhere unitId startDate endDate None)
                              (bookings w)))%nat
      then result = (Failure Conflict, w)
      else
        match BookingValidators.validate (validation_time w) userName startDate
                endDate
                (calculateTotalCost startDate endDate (StorageUnit.pricePerDay u))
        with
        | [] =>
            (exists body, fst result = Success 201 body)
            /\ snd result
               = insert_booking
                   (admitted_row userName unitId startDate endDate u w)
                   (tick (tick (tick w)))
        | msg :: msgs =>
            result = (Failure (ValidationError (msg :: msgs)),
                      tick (tick (tick w)))
        end
  end.
Proof.
  unfold createBooking, post_bookings, lookup_unit.
  cbn [run req_userName req_unitId req_startDate req_endDate].
  unfold StorageUnit_findByPk. cbn [fst].
  destruct (find _ (storage_units w)) as [u |]; [| reflexivity].
  destruct (negb (StorageUnit.isAvailable u)); [reflexivity |].
  cbn [run]. unfold checkBookingConflict, Booking_findAll.
  destruct (0 <? _)%nat; [reflexivity |].
  cbn [run]. unfold Booking_create, new_Date, validation_time.
  cbn [clock ticks tick].
  destruct (BookingValidators.validate _ _ _ _ _); cbn [run].
  - split; [eexists; reflexivity | reflexivity].
  - reflexivity.
Qed.

Lemma lookup_unit_In (w : World) (id : Z) (u : StorageUnit.t) :
  lookup_unit w id = Some u -> In u (storage_units w) /\ StorageUnit.id u = id.
Proof.
  unfold lookup_unit, StorageUnit_findByPk. cbn [fst]. intros H.
  apply find_some in H. destruct H as [Hin Heq].
  apply Z.eqb_eq in Heq. auto.
Qed.

Lemma conflict_found_iff (w : World) (unitId : Z) (startDate endDate : Date) :
  startDate <= endDate -> well_ordered w ->
  ((0 <? List.length (filter (conflictWhere unitId startDate endDate None)
                             (bookings w)))%nat = true
   <-> exists b, conflicting w unitId startDate endDate b).
Proof.
  intros Hse Hwo. split.
  - intros H. apply Nat.ltb_lt in H.
    destruct (filter _ (bookings w)) as [| b l] eqn:E; [simpl in H; lia |].
    exists b. assert (Hb : In b (filter (conflictWhere unitId startDate endDate None)
                                        (bookings w)))
      by (rewrite E; left; reflexivity).
    apply filter_In in Hb. destruct Hb as [Hin Hc].
    apply (conflictWhere_iff w unitId startDate endDate b); assumption.
  - intros [b Hc]. assert (Hin : In b (bookings w)) by apply Hc.
    apply (filter_nonempty _ _ b Hin).
    apply (conflictWhere_iff w unitId startDate endDate b); assumption.
Qed.






(** ** Running handlers *)

Lemma run_bind {A B : Type} (p : Proc A) (f : A -> Proc B) (w : World) :
  run (bind p f) w = run (f (fst (run p w))) (snd (run p w)).
Proof.
  revert w. induction p as [a | X action k IH]; intros w; cbn [bind run].
  - reflexivity.
  - destruct (action w) as [x w']. apply IH.
Qed.

Lemma BookingStatus_eqb_eq (a b : BookingStatus) :
  BookingStatus_eqb a b = true <-> a = b.
Proof.
  destruct a, b; simpl; split; intros H; try reflexivity; discriminate.
Qed.

Lemma determineBookingStatus_not_cancelled (startDate endDate now : Date) :
  determineBookingStatus startDate endDate now <> cancelled.
Proof.
  unfold determineBookingStatus.
  destruct (now <? startDate); [discriminate |].
  destruct (now >? endDate); discriminate.
Qed.

Lemma in_insert_createdAt_desc (b x : Booking.t) (l : list Booking.t) :
  In x (insert_createdAt_desc b l) <-> x = b \/ In x l.
Proof.
  induction l as [| y l IH]; simpl.
  - split; intros [H | H]; auto.
  - destruct (Booking.createdAt y <? Booking.createdAt b); simpl.
    + split; intros [H | H]; auto.
    + rewrite IH. split; intros H; intuition.
Qed.

Lemma in_order_createdAt_desc (x : Booking.t) (l : list Booking.t) :
  In x (order_createdAt_desc l) <-> In x l.
Proof.
  induction l as [| y l IH]; simpl; [reflexivity |].
  rewrite in_insert_createdAt_desc, IH. split; intros [H | H]; auto.
Qed.

(** ** The lazy refresh of the status *)

(** Resolving reads the clock and nothing else; a cancelled booking resolves
    to its own status. *)
Lemma run_resolve_all (bs : list Booking.t) (w : World) :
  bookings (snd (run (mapM resolve_status bs) w)) = bookings w
  /\ forall x ns, In (x, ns) (fst (run (mapM resolve_status bs) w)) ->
       In x bs /\ (ns <> Booking.status x -> Booking.status x <> cancelled).
Proof.
  revert w. induction bs as [| b bs IH]; intros w.
  - cbn [mapM run fst snd]. split; [reflexivity | intros x ns []].
  - cbn [mapM]. rewrite run_bind, run_bind. cbn [run fst snd].
    set (r1 := run (resolve_status b) w).
    assert (H1 : bookings (snd r1) = bookings w
                 /\ fst (fst r1) = b
                 /\ (snd (fst r1) <> Booking.status b ->
                     Booking.status b <> cancelled)).
    { unfold r1, resolve_status.
      destruct (BookingStatus_eqb (Booking.status b) cancelled) eqn:E;
        cbn [negb run new_Date fst snd tick bookings].
      - repeat split. intros H; contradiction.
      - repeat split. intros _ Hc. rewrite Hc in E. discriminate. }
    destruct H1 as (Hw1 & Hb1 & Hs1).
    destruct (IH (snd r1)) as [Hw2 Hin2].
    split; [rewrite Hw2; exact Hw1 |].
    intros x ns [Heq | Hin].
    + destruct (fst r1) as [b' ns']. cbn [fst snd] in *.
      injection Heq as <- <-. subst b'. split; [left; reflexivity | exact Hs1].
    + destruct (Hin2 x ns Hin) as [Hx Hs]. split; [right; exact Hx | exact Hs].
Qed.

(** Persisting rewrites only rows whose status was resolved anew. *)
Lemma run_persist_all (resolved : list (Booking.t * BookingStatus))
    (i : Z) (w : World) :
  (forall x ns, In (x, ns) resolved -> ns <> Booking.status x ->
                Booking.id x <> i) ->
  lookup_booking (snd (run (mapM persist_status resolved) w)) i
  = lookup_booking w i.
Proof.
  revert w. induction resolved as [| [x ns] l IH]; intros w H.
  - reflexivity.
  - cbn [mapM]. rewrite run_bind, run_bind. cbn [run fst snd].
    rewrite IH by (intros y m Hy; apply H; right; exact Hy).
    unfold persist_status.
    destruct (BookingStatus_eqb ns (Booking.status x)) eqn:E;
      cbn [negb run Booking_reload Booking_findByPk snd].
    + reflexivity.
    + unfold Booking_update_status. cbn [snd].
      unfold lookup_booking, Booking_findByPk, set_bookings.
      cbn [fst bookings].
      apply find_update_other.
      assert (Hne : Booking.id x <> i).
      { apply (H x ns); [left; reflexivity |].
        intros Heq. apply BookingStatus_eqb_eq in Heq. congruence. }
      congruence.
Qed.

Lemma unique_ids_inj (w : World) (x y : Booking.t) :
  unique_ids w -> In x (bookings w) -> In y (bookings w) ->
  Booking.id x = Booking.id y -> x = y.
Proof.
  intros Hu Hx Hy Hid.
  pose proof (lookup_unique w x Hu Hx) as Lx.
  pose proof (lookup_unique w y Hu Hy) as Ly.
  rewrite Hid in Lx. congruence.
Qed.

(** C5. A booking whose stored status is cancelled is left as it is by the
    status refresh of both read paths, whatever the clock shows: after
    listing a user's bookings, and after fetching a booking by id, the row
    with its id is the same row, status cancelled included. *)
Theorem cancelled_survives_refresh (w : World) (b : Booking.t) :
  unique_ids w -> In b (bookings w) -> Booking.status b = cancelled ->
  (forall userName status,
      lookup_booking (snd (listBookingsForUser userName status w)) (Booking.id b)
      = Some b)
  /\ (forall id,
      lookup_booking (snd (getBooking id w)) (Booking.id b) = Some b).
Proof.
  intros Hu Hin Hs.
  pose proof (lookup_unique w b Hu Hin) as Hb.
  split.
  - intros userName status.
    unfold listBookingsForUser, get_bookings.
    cbn [run Booking_findAll_ordered new_Date].
    set (found := order_createdAt_desc
                    (filter (listWhere userName status) (bookings w))).
    rewrite run_bind, run_bind.
    destruct (run_resolve_all found (tick w)) as [Hw Hres].
    set (r1 := run (mapM resolve_status found) (tick w)) in *.
    set (r2 := run (mapM persist_status (fst r1)) (snd r1)).
    assert (Hlast : forall (o : option (list Booking.t)) (w0 : World),
               snd (run match o with
                        | None => Ret (Failure InstanceError)
                        | Some updatedBookings =>
                            Ret (Success 200
                                   (mkListing updatedBookings
                                      (summarise updatedBookings) userName))
                        end w0) = w0)
      by (intros [l |] w0; reflexivity).
    rewrite Hlast. unfold r2.
    rewrite run_persist_all.
    + unfold lookup_booking, Booking_findByPk in *. cbn [fst] in *.
      rewrite Hw. exact Hb.
    + intros x ns Hx Hns Hid.
      destruct (Hres x ns Hx) as [Hfound Hnc].
      apply in_order_createdAt_desc, filter_In in Hfound.
      destruct Hfound as [Hxw _].
      assert (x = b) by (apply (unique_ids_inj w); assumption).
      subst x. exact (Hnc Hns Hs).
  - intros id. unfold getBooking, get_booking.
    cbn [run]. unfold Booking_findByPk at 1.
    destruct (find (fun x => Booking.id x =? id) (bookings w)) as [x |] eqn:Hx;
      [| exact Hb].
    destruct (BookingStatus_eqb (Booking.status x) cancelled) eqn:Ec;
      cbn [negb run]; [exact Hb |].
    cbn [new_Date].
    destruct (BookingStatus_eqb
                (determineBookingStatus (Booking.startDate x) (Booking.endDate x)
                   (clock w (ticks w)))
                (Booking.status x)) eqn:En; cbn [negb run]; [exact Hb |].
    assert (Hne : Booking.id b <> Booking.id x).
    { intros Hid. apply find_some in Hx. destruct Hx as [Hxw _].
      assert (b = x) by (apply (unique_ids_inj w); assumption).
      subst x. rewrite Hs in Ec. discriminate. }
    assert (Hupd : lookup_booking
                     (snd (Booking_update_status (Booking.id x)
                             (determineBookingStatus (Booking.startDate x)
                                (Booking.endDate x) (clock w (ticks w)))
                             (tick w))) (Booking.id b) = Some b).
    { unfold lookup_booking, Booking_findByPk in *. cbn [fst] in *.
      rewrite Booking_update_status_bookings.
      rewrite find_update_other by exact Hne. exact Hb. }
    clear Hx.
    unfold Booking_update_status in *. cbn [snd] in *.
    unfold Booking_reload, Booking_findByPk at 1.
    destruct (find _ (bookings (set_bookings _ (tick w)))); exact Hupd.
Qed.

Lemma cancelled_survives_refresh_witness :
  let b1 := Booking.mk 1 "Test User" 1 100 200 375 cancelled 50 in
  let b2 := Booking.mk 2 "Test User" 1 100 200 375 upcoming 60 in
  let w := mkWorld [] [b1; b2] 3 (fun n => 1000 + Z.of_nat n) 0 in
  unique_ids w /\ In b1 (bookings w) /\ Booking.status b1 = cancelled
  /\ lookup_booking (snd (listBookingsForUser "test" None w)) 1 = Some b1
  /\ lookup_booking (snd (listBookingsForUser "test" None w)) 2
     = Some (Booking.with_status completed b2)
  /\ lookup_booking (snd (getBooking 1 w)) 1 = Some b1.
Proof.
  intros b1 b2 w.
  assert (Hu : unique_ids w).
  { unfold unique_ids. cbn. repeat constructor; cbn; intuition; discriminate. }
  assert (Hin : In b1 (bookings w)) by (left; reflexivity).
  assert (Hs : Booking.status b1 = cancelled) by reflexivity.
  destruct (cancelled_survives_refresh w b1 Hu Hin Hs) as [Hlist Hget].
  repeat (split; [assumption |]).
  split; [exact (Hlist "test"%string None) |].
  split; [vm_compute; reflexivity | exact (Hget 1)].
Defined.

(** ** Admissions one after the other, and interleaved *)

Lemma check_nil (ok : bool) (msg : string) :
  BookingValidators.check ok msg = [] -> ok = true.
Proof.
  destruct ok; [reflexivity | discriminate].
Qed.

Lemma validate_nil (now : Date) (userName : string)
    (startDate endDate : Date) (totalCost : Q) :
  BookingValidators.validate now userName startDate endDate totalCost = [] ->
  now <= startDate /\ startDate < endDate.
Proof.
  unfold BookingValidators.validate. intros H.
  apply app_eq_nil in H. destruct H as [_ H].
  apply app_eq_nil in H. destruct H as [_ H].
  apply app_eq_nil in H. destruct H as [H1 H].
  apply app_eq_nil in H. destruct H as [H2 _].
  apply check_nil in H1. apply check_nil in H2.
  unfold BookingValidators.isAfterToday in H1.
  unfold BookingValidators.isAfterStartDate in H2.
  apply negb_true_iff in H1. apply negb_true_iff in H2.
  apply Z.ltb_ge in H1. apply Z.leb_gt in H2. auto.
Qed.

(** With a clock that does not run backwards, the status computed for an
    admitted booking is upcoming or active. *)
Lemma admitted_status_open (startDate endDate : Date) (w : World) :
  monotone_clock w ->
  validation_time w <= startDate -> startDate < endDate ->
  is_open (determineBookingStatus startDate endDate (status_time w)) = true.
Proof.
  unfold validation_time, status_time, determineBookingStatus.
  intros Hm Hv Hse.
  pose proof (Hm (ticks w)) as M1. pose proof (Hm (S (ticks w))) as M2.
  destruct (clock w (ticks w) <? startDate); [reflexivity |].
  assert (E : (clock w (ticks w) >? endDate) = false)
    by (rewrite Z.gtb_ltb; apply Z.ltb_ge; lia).
  rewrite E. reflexivity.
Qed.

(** C9 as amended.  Nothing makes the conflict check and the insert of an
    admission one transaction; when two admission requests for overlapping
    ranges on the same unit are handled one after the other, on a clock that
    does not run backwards, they do not both succeed: if the first is
    admitted, the second is rejected with Conflict. *)
Theorem serial_admissions_exclude (r1 r2 : BookingRequest) (w : World) :
  monotone_clock w ->
  req_unitId r1 = req_unitId r2 ->
  overlaps (req_startDate r1) (req_endDate r1)
           (req_startDate r2) (req_endDate r2) ->
  (exists body, fst (run (post_bookings r1) w) = Success 201 body) ->
  fst (run (post_bookings r2) (snd (run (post_bookings r1) w)))
  = Failure Conflict.
Proof.
  destruct r1 as [n1 u1 s1 e1], r2 as [n2 u2 s2 e2].
  cbn [req_unitId req_startDate req_endDate].
  intros Hm Hu [Ho1 Ho2] [body Hbody]. subst u2.
  change (run (post_bookings (mkRequest n1 u1 s1 e1)) w)
    with (createBooking n1 u1 s1 e1 w) in *.
  pose proof (createBooking_eq n1 u1 s1 e1 w) as E1. cbv zeta in E1.
  destruct (lookup_unit w u1) as [u |] eqn:Hlu;
    [| rewrite E1 in Hbody; discriminate].
  destruct (StorageUnit.isAvailable u) eqn:Ha; cbn [negb] in E1;
    [| rewrite E1 in Hbody; discriminate].
  destruct (0 <? _)%nat; [rewrite E1 in Hbody; discriminate |].
  destruct (BookingValidators.validate _ _ _ _ _) eqn:Hv;
    [| rewrite E1 in Hbody; discriminate].
  destruct E1 as [_ Hw1].
  apply validate_nil in Hv. destruct Hv as [Hv Hse].
  set (b := admitted_row n1 u1 s1 e1 u w) in *.
  set (w1 := createBooking n1 u1 s1 e1 w) in *.
  change (run (post_bookings (mkRequest n2 u1 s2 e2)) (snd w1))
    with (createBooking n2 u1 s2 e2 (snd w1)).
  pose proof (createBooking_eq n2 u1 s2 e2 (snd w1)) as E2. cbv zeta in E2.
  assert (Hlu2 : lookup_unit (snd w1) u1 = Some u)
    by (rewrite Hw1; exact Hlu).
  rewrite Hlu2, Ha in E2. cbn [negb] in E2.
  assert (Hc : (0 <? List.length
                       (filter (conflictWhere u1 s2 e2 None)
                               (bookings (snd w1))))%nat = true).
  { apply (filter_nonempty _ _ b).
    - rewrite Hw1. cbn [insert_booking bookings tick].
      apply in_or_app. right. left. reflexivity.
    - unfold conflictWhere. cbn [b admitted_row Booking.unitId Booking.status
                                  Booking.startDate Booking.endDate].
      rewrite Z.eqb_refl, (admitted_status_open s1 e1 w Hm Hv Hse).
      rewrite overlaps_conflictDates by (split; assumption).
      reflexivity. }
  rewrite Hc in E2. rewrite E2. reflexivity.
Qed.

Lemma serial_admissions_exclude_witness :
  let u := StorageUnit.mk 1 "Medium Storage Unit B2" "10x10 ft" "Downtown" 25
             true None in
  let w := mkWorld [u] [] 1 (fun n => 1709200000000 + Z.of_nat n) 0 in
  let r1 := mkRequest "Test User" 1 1709251200000 1710460800000 in
  let r2 := mkRequest "Other User" 1 1709856000000 1711065600000 in
  monotone_clock w
  /\ req_unitId r1 = req_unitId r2
  /\ overlaps (req_startDate r1) (req_endDate r1)
              (req_startDate r2) (req_endDate r2)
  /\ (exists body, fst (run (post_bookings r1) w) = Success 201 body)
  /\ fst (run (post_bookings r2) (snd (run (post_bookings r1) w)))
     = Failure Conflict.
Proof.
  intros u w r1 r2.
  assert (Hm : monotone_clock w) by (intros n; cbn [clock w]; lia).
  assert (Hu : req_unitId r1 = req_unitId r2) by reflexivity.
  assert (Ho : overlaps (req_startDate r1) (req_endDate r1)
                        (req_startDate r2) (req_endDate r2))
    by (split; cbn; lia).
  assert (Hs : exists body, fst (run (post_bookings r1) w) = Success 201 body)
    by (eexists; reflexivity).
  repeat (split; [assumption |]).
  exact (serial_admissions_exclude r1 r2 w Hm Hu Ho Hs).
Defined.

(** C9, the claim as stated fails: two admission requests for overlapping
    ranges on the same unit, the second one checked for conflicts before the
    first one has inserted its row; both are answered 201 and both bookings
    are stored. *)
Lemma interleaved_admissions_both_succeed :
  let u := StorageUnit.mk 1 "Medium Storage Unit B2" "10x10 ft" "Downtown" 25
             true None in
  let w := mkWorld [u] [] 1 (fun n => 1709200000000 + Z.of_nat n) 0 in
  let r1 := mkRequest "Test User" 1 1709251200000 1710460800000 in
  let r2 := mkRequest "Other User" 1 1709856000000 1711065600000 in
  let schedule := [0; 0; 1; 1; 0; 0; 0; 1; 1; 1]%nat in
  let outcome := exec schedule [post_bookings r1; post_bookings r2] w in
  req_unitId r1 = req_unitId r2
  /\ overlaps (req_startDate r1) (req_endDate r1)
              (req_startDate r2) (req_endDate r2)
  /\ exists body1 body2 b1 b2,
       fst outcome = [Ret (Success 201 body1); Ret (Success 201 body2)]
       /\ bookings (snd outcome) = [b1; b2]
       /\ Booking.unitId b1 = 1 /\ Booking.unitId b2 = 1
       /\ Booking.status b1 = upcoming /\ Booking.status b2 = upcoming
       /\ overlaps (Booking.startDate b1) (Booking.endDate b1)
                   (Booking.startDate b2) (Booking.endDate b2).
Proof.
  intros u w r1 r2 schedule outcome.
  split; [reflexivity |]. split; [split; cbn; lia |].
  do 4 eexists.
  split; [reflexivity |]. split; [reflexivity |].
  repeat (split; [reflexivity |]).
  split; cbn; lia.
Qed.

(** ** Matching user names *)

Lemma LIKE_percent (p s : string) :
  LIKE (String "%" p) s
  = LIKE p s
    || match s with
       | EmptyString => false
       | String _ s' => LIKE (String "%" p) s'
       end.
Proof.
  destruct s; reflexivity.
Qed.

Lemma LIKE_literal (c : ascii) (p s : string) :
  is_wildcard c = false ->
  LIKE (String c p) s
  = match s with
    | EmptyString => false
    | String d s' => (d =? c)%char && LIKE p s'
    end.
Proof.
  unfold is_wildcard. intros H.
  apply orb_false_iff in H. destruct H as [H H3].
  apply orb_false_iff in H. destruct H as [H1 H2].
  cbn [LIKE]. rewrite H1, H2, H3. reflexivity.
Qed.

Lemma LIKE_percent_only (s : string) : LIKE "%" s = true.
Proof.
  induction s as [| c s IH].
  - reflexivity.
  - rewrite LIKE_percent, IH. apply orb_true_r.
Qed.

Lemma LIKE_prefix (q s : string) :
  wildcard_free q = true ->
  LIKE (q ++ "%") s = String.prefix q s.
Proof.
  revert s. induction q as [| c q IH]; intros s H.
  - cbn [append]. rewrite LIKE_percent_only. destruct s; reflexivity.
  - cbn [wildcard_free] in H. apply andb_true_iff in H. destruct H as [Hc Hq].
    apply negb_true_iff in Hc.
    cbn [append]. rewrite (LIKE_literal c _ s Hc).
    destruct s as [| d s]; [reflexivity |].
    cbn [String.prefix]. rewrite IH by exact Hq.
    destruct (ascii_dec c d) as [-> | Hne].
    + rewrite Ascii.eqb_refl. reflexivity.
    + assert (E : (d =? c)%char = false)
        by (apply Ascii.eqb_neq; congruence).
      rewrite E. reflexivity.
Qed.

Lemma LIKE_substring (q s : string) :
  wildcard_free q = true ->
  LIKE (String "%" (q ++ "%")) s = occurs_in q s.
Proof.
  intros H. induction s as [| c s IH].
  - rewrite LIKE_percent, LIKE_prefix by exact H.
    cbn [occurs_in]. reflexivity.
  - rewrite LIKE_percent, LIKE_prefix by exact H.
    cbn [occurs_in]. rewrite IH. reflexivity.
Qed.

Lemma is_wildcard_lower (c : ascii) :
  is_wildcard (lower_ascii c) = is_wildcard c.
Proof.
  destruct c as [[] [] [] [] [] [] [] []]; reflexivity.
Qed.

Lemma wildcard_free_lower (s : string) :
  wildcard_free (lower s) = wildcard_free s.
Proof.
  induction s as [| c s IH]; [reflexivity |].
  cbn [lower wildcard_free]. rewrite is_wildcard_lower, IH. reflexivity.
Qed.

Lemma lower_append (s t : string) :
  lower (s ++ t) = (lower s ++ lower t)%string.
Proof.
  induction s as [| c s IH]; [reflexivity |].
  cbn [append lower]. rewrite IH. reflexivity.
Qed.

(** For a user name without [%], [_] and backslash, the [where] clause of
    the listing is the case-insensitive partial match. *)
Lemma listWhere_wildcard_free (userName : string) (b : Booking.t) :
  wildcard_free userName = true ->
  listWhere userName None b = occurs_in_ci userName (Booking.userName b).
Proof.
  intros H. unfold listWhere, ILIKE, occurs_in_ci. cbn [parse_status].
  rewrite andb_true_r.
  change ("%" ++ userName ++ "%")%string
    with (String "%" (userName ++ "%")).
  cbn [lower]. rewrite lower_append.
  change (lower_ascii "%") with "%"%char. change (lower "%") with "%"%string.
  apply LIKE_substring. rewrite wildcard_free_lower. exact H.
Qed.

(** C10 on the code: the user name [test] selects the booking of
    [Test User], in whose name it occurs when case is folded; but the user
    name [_], which [validateUserName] lets through, selects that booking
    too, and no underscore occurs in [Test User]. *)
Theorem listBookingsForUser_underscore :
  let b := Booking.mk 1 "Test User" 1 1709251200000 1710460800000 375
             upcoming 1709200000001 in
  let w := mkWorld [] [b] 2 (fun n => 1709200000010 + Z.of_nat n) 0 in
  (occurs_in_ci "test" (Booking.userName b) = true
   /\ exists body,
        fst (listBookingsForUser "test" None w) = Success 200 body
        /\ listing_bookings body = [b])
  /\ (occurs_in_ci "_" (Booking.userName b) = false
      /\ exists body,
           fst (listBookingsForUser "_" None w) = Success 200 body
           /\ listing_bookings body = [b]).
Proof.
  intros b w. split.
  - split; [reflexivity |]. eexists. split; reflexivity.
  - split; [reflexivity |]. eexists. split; reflexivity.
Qed.

(** ** What every handler keeps true, under every schedule *)

Lemma keeps_run {A : Type} (P : World -> Prop) (p : Proc A) (w : World) :
  keeps P p -> P w -> P (snd (run p w)).
Proof.
  revert w. induction p as [a | X action k IH]; intros w Hk Hw; cbn [run].
  - exact Hw.
  - destruct Hk as [Ha Hk]. specialize (Ha w Hw).
    destruct (action w) as [x w']. apply IH; [apply Hk | exact Ha].
Qed.

Lemma keeps_step {A : Type} (P : World -> Prop) (p : Proc A) (w : World) :
  keeps P p -> P w -> keeps P (fst (step p w)) /\ P (snd (step p w)).
Proof.
  destruct p as [a | X action k]; cbn [step]; intros Hk Hw.
  - split; assumption.
  - destruct Hk as [Ha Hk]. specialize (Ha w Hw).
    destruct (action w) as [x w']. split; [apply Hk | exact Ha].
Qed.

Lemma keeps_replace_nth {A : Type} (P : World -> Prop) (n : nat) (p : Proc A)
    (pool : list (Proc A)) :
  keeps P p -> Forall (keeps P) pool -> Forall (keeps P) (replace_nth n p pool).
Proof.
  intros Hp Hpool. revert n.
  induction Hpool as [| q pool Hq Hpool IH]; intros n.
  - destruct n; constructor.
  - destruct n; cbn [replace_nth]; constructor; auto.
Qed.

Lemma keeps_exec {A : Type} (P : World -> Prop) (schedule : list nat)
    (pool : list (Proc A)) (w : World) :
  Forall (keeps P) pool -> P w -> P (snd (exec schedule pool w)).
Proof.
  revert pool w. induction schedule as [| i schedule IH]; intros pool w Hpool Hw.
  - exact Hw.
  - cbn [exec]. destruct (nth_error pool i) as [p |] eqn:Hp; [| auto].
    assert (Hkp : keeps P p).
    { rewrite Forall_forall in Hpool. apply Hpool.
      apply (nth_error_In _ _ Hp). }
    destruct (keeps_step P p w Hkp Hw) as [Hk' Hw'].
    destruct (step p w) as [p' w']. cbn [fst snd] in *.
    apply IH; [apply keeps_replace_nth; assumption | exact Hw'].
Qed.

Lemma keeps_bind {A B : Type} (P : World -> Prop) (p : Proc A)
    (f : A -> Proc B) :
  keeps P p -> (forall a, keeps P (f a)) -> keeps P (bind p f).
Proof.
  intros Hp Hf. induction p as [a | X action k IH]; cbn [bind keeps] in *.
  - apply Hf.
  - destruct Hp as [Ha Hk]. split; [exact Ha |].
    intros x. apply IH. apply Hk.
Qed.

Lemma keeps_mapM {A B : Type} (P : World -> Prop) (f : A -> Proc B)
    (l : list A) :
  (forall a, keeps P (f a)) -> keeps P (mapM f l).
Proof.
  intros Hf. induction l as [| a l IH]; cbn [mapM]; [exact I |].
  apply keeps_bind; [apply Hf |]. intros b.
  apply keeps_bind; [exact IH |]. intros bs. exact I.
Qed.

Lemma map_id_set_status_of (id : Z) (s : BookingStatus) (l : list Booking.t) :
  map Booking.id (map (set_status_of id s) l) = map Booking.id l.
Proof.
  rewrite map_map. apply map_ext. intros b. apply id_set_status_of.
Qed.

Lemma store_ok_update (id : Z) (s : BookingStatus) (w : World) :
  store_ok w -> store_ok (snd (Booking_update_status id s w)).
Proof.
  intros (Hwo & Hu & Hseq). unfold Booking_update_status. cbn [snd].
  unfold store_ok, well_ordered, unique_ids, set_bookings.
  cbn [bookings bookings_id_seq].
  split; [| split].
  - intros b Hb. apply in_map_iff in Hb. destruct Hb as (x & <- & Hx).
    specialize (Hwo x Hx). unfold set_status_of.
    destruct (Booking.id x =? id); exact Hwo.
  - rewrite map_id_set_status_of. exact Hu.
  - intros b Hb. apply in_map_iff in Hb. destruct Hb as (x & <- & Hx).
    rewrite id_set_status_of. apply Hseq. exact Hx.
Qed.

Lemma store_ok_create (userName : string) (unitId : Z)
    (startDate endDate : Date) (totalCost : Q) (status : BookingStatus)
    (w : World) :
  store_ok w ->
  store_ok (snd (Booking_create userName unitId startDate endDate totalCost
                   status w)).
Proof.
  intros (Hwo & Hu & Hseq). unfold Booking_create, new_Date.
  cbn [tick clock ticks].
  destruct (BookingValidators.validate _ _ _ _ _) eqn:Hv; cbn [snd].
  2:{ split; [| split]; assumption. }
  apply validate_nil in Hv. destruct Hv as [_ Hse].
  unfold store_ok, well_ordered, unique_ids, insert_booking.
  cbn [bookings bookings_id_seq tick].
  split; [| split].
  - intros b Hb. apply in_app_or in Hb. destruct Hb as [Hb | [<- | []]].
    + apply Hwo. exact Hb.
    + cbn [Booking.startDate Booking.endDate]. lia.
  - rewrite map_app. cbn [map Booking.id].
    apply NoDup_app; [exact Hu | repeat constructor; intros [] |].
    intros i Hi [<- | []]. apply in_map_iff in Hi.
    destruct Hi as (x & Hid & Hx). specialize (Hseq x Hx). lia.
  - intros b Hb. apply in_app_or in Hb. destruct Hb as [Hb | [<- | []]].
    + specialize (Hseq b Hb). lia.
    + cbn [Booking.id]. lia.
Qed.

Ltac keeps_read :=
  let w := fresh "w" in let H := fresh "H" in
  intros w H; exact H.

Lemma keeps_post_bookings (r : BookingRequest) : keeps store_ok (post_bookings r).
Proof.
  unfold post_bookings. cbn [keeps]. split; [keeps_read |].
  intros [u |]; [| exact I].
  destruct (negb (StorageUnit.isAvailable u)); cbn [keeps]; [exact I |].
  split; [keeps_read |].
  intros [|]; cbn [keeps]; [exact I |].
  split; [keeps_read |]. intros now.
  split; [intros w H; apply store_ok_create; exact H |].
  intros [msgs | b]; cbn [keeps]; [exact I |].
  split; [keeps_read | intros; exact I].
Qed.

Lemma keeps_put_booking_cancel (id : Z) : keeps store_ok (put_booking_cancel id).
Proof.
  unfold put_booking_cancel. cbn [keeps]. split; [keeps_read |].
  intros [b |]; [| exact I].
  destruct (BookingStatus_eqb (Booking.status b) cancelled); [exact I |].
  destruct (BookingStatus_eqb (Booking.status b) completed); [exact I |].
  cbn [keeps]. split; [| intros; exact I].
  intros w H. apply store_ok_update. exact H.
Qed.

Lemma keeps_get_booking (id : Z) : keeps store_ok (get_booking id).
Proof.
  unfold get_booking. cbn [keeps]. split; [keeps_read |].
  intros [b |]; [| exact I].
  destruct (negb (BookingStatus_eqb (Booking.status b) cancelled));
    cbn [keeps]; [| exact I].
  split; [keeps_read |]. intros now.
  destruct (negb (BookingStatus_eqb _ (Booking.status b)));
    cbn [keeps]; [| exact I].
  split; [intros w H; apply store_ok_update; exact H |].
  intros _. split; [keeps_read |].
  intros [b' |]; exact I.
Qed.

Lemma keeps_get_bookings (userName : string) (status : option string) :
  keeps store_ok (get_bookings userName status).
Proof.
  unfold get_bookings. cbn [keeps]. split; [keeps_read |].
  intros found. split; [keeps_read |]. intros now.
  apply keeps_bind.
  - apply keeps_mapM. intros b. unfold resolve_status.
    destruct (negb (BookingStatus_eqb (Booking.status b) cancelled));
      cbn [keeps]; [| exact I].
    split; [keeps_read | intros; exact I].
  - intros resolved. apply keeps_bind.
    + apply keeps_mapM. intros [b ns]. unfold persist_status.
      destruct (negb (BookingStatus_eqb ns (Booking.status b))); cbn [keeps].
      * split; [intros w H; apply store_ok_update; exact H |].
        intros _. split; [keeps_read | intros; exact I].
      * split; [keeps_read | intros; exact I].
    + intros reloaded. destruct (all_some reloaded); exact I.
Qed.

(** X12. Whatever the admission requests and however their actions
    interleave, the store keeps its ranges well ordered and its ids unique
    and below the next value of the sequence. *)
Lemma store_ok_admissions (schedule : list nat) (requests : list BookingRequest)
    (w : World) :
  store_ok w -> store_ok (snd (exec schedule (map post_bookings requests) w)).
Proof.
  intros H. apply keeps_exec; [| exact H].
  apply Forall_forall. intros p Hp. apply in_map_iff in Hp.
  destruct Hp as (r & <- & _). apply keeps_post_bookings.
Qed.

(** ** Further properties of the status resolver and of cancellation *)

(** X1. As time passes the resolved status of a well-ordered range only
    moves forward, from upcoming to active to completed. *)
Theorem determineBookingStatus_monotone (startDate endDate now now' : Date) :
  startDate <= endDate -> now <= now' ->
  status_rank (determineBookingStatus startDate endDate now)
  <= status_rank (determineBookingStatus startDate endDate now').
Proof.
  intros Hse Hn. unfold determineBookingStatus.
  rewrite !Z.gtb_ltb.
  destruct (now <? startDate) eqn:A; destruct (now' <? startDate) eqn:B;
    destruct (endDate <? now) eqn:C; destruct (endDate <? now') eqn:D;
    cbn [status_rank]; try lia;
    repeat match goal with
           | H : (_ <? _) = true |- _ => apply Z.ltb_lt in H
           | H : (_ <? _) = false |- _ => apply Z.ltb_ge in H
           end; lia.
Qed.

Lemma determineBookingStatus_monotone_witness :
  10 <= 20 /\ 15 <= 25
  /\ status_rank (determineBookingStatus 10 20 15)
     <= status_rank (determineBookingStatus 10 20 25).
Proof.
  split; [lia |]. split; [lia |].
  apply (determineBookingStatus_monotone 10 20 15 25); lia.
Defined.

Lemma cancelBooking_success_world (id : Z) (w : World) (b : Booking.t) :
  lookup_booking w id = Some b ->
  Booking.status b = upcoming \/ Booking.status b = active ->
  cancelBooking id w
  = (Success 200 (mkCancelled id cancelled cancelled),
     snd (Booking_update_status id cancelled w)).
Proof.
  intros Hb Hs. destruct (lookup_booking_id _ _ _ Hb) as [_ Hid].
  rewrite cancelBooking_eq, Hb, Hid.
  destruct Hs as [Hs | Hs]; rewrite Hs; reflexivity.
Qed.

(** X2. Cancelling a booking a second time is rejected with
    AlreadyCancelled and changes nothing. *)
Theorem cancelBooking_twice (id : Z) (w : World) (b : Booking.t) :
  lookup_booking w id = Some b ->
  Booking.status b = upcoming \/ Booking.status b = active ->
  let w' := snd (cancelBooking id w) in
  cancelBooking id w' = (Failure AlreadyCancelled, w').
Proof.
  intros Hb Hs w'. unfold w'.
  rewrite (cancelBooking_success_world id w b Hb Hs). cbn [snd].
  rewrite cancelBooking_eq.
  assert (H : lookup_booking (snd (Booking_update_status id cancelled w)) id
              = Some (Booking.with_status cancelled b)).
  { unfold lookup_booking, Booking_findByPk in *. cbn [fst] in *.
    rewrite Booking_update_status_bookings, find_update_same, Hb. reflexivity. }
  rewrite H. reflexivity.
Qed.

Lemma cancelBooking_twice_witness :
  let b := Booking.mk 1 "Test User" 1 86400000 1296000000 375 upcoming 1001 in
  let w := mkWorld [] [b] 2 (fun n => 1000 + Z.of_nat n) 0 in
  lookup_booking w 1 = Some b
  /\ (Booking.status b = upcoming \/ Booking.status b = active)
  /\ cancelBooking 1 (snd (cancelBooking 1 w))
     = (Failure AlreadyCancelled, snd (cancelBooking 1 w)).
Proof.
  intros b w.
  assert (Hb : lookup_booking w 1 = Some b) by reflexivity.
  assert (Hs : Booking.status b = upcoming \/ Booking.status b = active)
    by (left; reflexivity).
  split; [exact Hb |]. split; [exact Hs |].
  exact (cancelBooking_twice 1 w b Hb Hs).
Defined.

(** X3. After a successful cancellation no booking with that id is
    reported as a conflict by the availability check, for any unit and any
    range, and every conflict reported was a stored booking before. *)
Theorem cancelBooking_frees (id : Z) (w : World) (b : Booking.t)
    (unitId : Z) (startDate endDate : Date) (body : Availability) :
  lookup_booking w id = Some b ->
  Booking.status b = upcoming \/ Booking.status b = active ->
  fst (checkAvailability unitId startDate endDate (snd (cancelBooking id w)))
  = Success 200 body ->
  forall x, In x (conflicts body) -> Booking.id x <> id /\ In x (bookings w).
Proof.
  intros Hb Hs Hbody x Hx.
  rewrite (cancelBooking_success_world id w b Hb Hs) in Hbody. cbn [snd] in Hbody.
  unfold checkAvailability, get_unit_availability in Hbody.
  destruct (startDate >=? endDate); [discriminate |].
  cbn [run] in Hbody. unfold StorageUnit_findByPk in Hbody.
  destruct (find _ _) as [u |]; [| discriminate].
  cbn [run Booking_findAll fst] in Hbody. injection Hbody as <-.
  cbn [conflicts] in Hx. apply filter_In in Hx. destruct Hx as [Hin Hw].
  unfold Booking_update_status, set_bookings in Hin.
  cbn [snd bookings] in Hin.
  apply in_map_iff in Hin. destruct Hin as (y & Hy & Hin).
  unfold availabilityWhere in Hw.
  apply andb_true_iff in Hw. destruct Hw as [Hw _].
  apply andb_true_iff in Hw. destruct Hw as [_ Ho].
  unfold set_status_of in Hy.
  destruct (Booking.id y =? id) eqn:E.
  - subst x. discriminate.
  - subst x. apply Z.eqb_neq in E. auto.
Qed.

Lemma cancelBooking_frees_witness :
  let u := StorageUnit.mk 1 "Medium Storage Unit B2" "10x10 ft" "Downtown" 25
             true None in
  let b := Booking.mk 1 "Test User" 1 100 200 375 upcoming 50 in
  let w := mkWorld [u] [b] 2 (fun n => 10 + Z.of_nat n) 0 in
  lookup_booking w 1 = Some b
  /\ (Booking.status b = upcoming \/ Booking.status b = active)
  /\ exists body,
       fst (checkAvailability 1 150 160 (snd (cancelBooking 1 w)))
       = Success 200 body
       /\ forall x, In x (conflicts body) -> Booking.id x <> 1 /\ In x (bookings w).
Proof.
  intros u b w.
  assert (Hb : lookup_booking w 1 = Some b) by reflexivity.
  assert (Hs : Booking.status b = upcoming \/ Booking.status b = active)
    by (left; reflexivity).
  split; [exact Hb |]. split; [exact Hs |].
  eexists. split; [reflexivity |].
  apply (cancelBooking_frees 1 w b 1 150 160 _ Hb Hs). reflexivity.
Defined.

Lemma with_status_same (b : Booking.t) :
  Booking.with_status (Booking.status b) b = b.
Proof. destruct b; reflexivity. Qed.

Lemma getBooking_eq (id : Z) (w : World) :
  getBooking id w =
  match lookup_booking w id with
  | None => (Failure BookingNotFound, w)
  | Some b =>
      if BookingStatus_eqb (Booking.status b) cancelled then (Success 200 b, w)
      else
        let ns := determineBookingStatus (Booking.startDate b)
                    (Booking.endDate b) (clock w (ticks w)) in
        if BookingStatus_eqb ns (Booking.status b) then (Success 200 b, tick w)
        else
          let w' := snd (Booking_update_status (Booking.id b) ns (tick w)) in
          (match lookup_booking w' (Booking.id b) with
           | Some b' => Success 200 b'
           | None => Failure InstanceError
           end, w')
  end.
Proof.
  unfold getBooking, get_booking, lookup_booking.
  cbn [run]. unfold Booking_findByPk at 1 2. cbn [fst].
  destruct (find _ (bookings w)) as [b |]; [| reflexivity].
  destruct (BookingStatus_eqb (Booking.status b) cancelled);
    cbn [negb run]; [reflexivity |].
  cbn [new_Date]. cbv zeta.
  destruct (BookingStatus_eqb _ (Booking.status b));
    cbn [negb run]; [reflexivity |].
  unfold Booking_update_status, Booking_reload, Booking_findByPk.
  cbn [fst snd].
  destruct (find _ _); reflexivity.
Qed.

(** X4. Fetching a booking by id answers NotFound, the world untouched, when
    no booking has the id; otherwise it answers with the stored booking, its
    status cancelled when it is stored as cancelled and otherwise the status
    resolved at the current reading of the clock, and the row stored
    afterwards is the row of the answer. *)
Theorem getBooking_fresh (id : Z) (w : World) :
  (lookup_booking w id = None ->
   getBooking id w = (Failure BookingNotFound, w))
  /\ (forall b, lookup_booking w id = Some b ->
      exists b',
        fst (getBooking id w) = Success 200 b'
        /\ lookup_booking (snd (getBooking id w)) id = Some b'
        /\ same_but_status b b'
        /\ (Booking.status b = cancelled -> b' = b)
        /\ (Booking.status b <> cancelled ->
            Booking.status b'
            = determineBookingStatus (Booking.startDate b) (Booking.endDate b)
                (clock w (ticks w)))).
Proof.
  rewrite getBooking_eq. split.
  - intros H. rewrite H. reflexivity.
  - intros b Hb. rewrite Hb.
    destruct (lookup_booking_id w id b Hb) as [_ Hid].
    assert (Hsame : same_but_status b b)
      by (unfold same_but_status; symmetry; apply with_status_same).
    destruct (BookingStatus_eqb (Booking.status b) cancelled) eqn:Ec.
    + exists b. cbn [fst snd].
      split; [reflexivity |]. split; [exact Hb |]. split; [exact Hsame |].
      split; [reflexivity |].
      intros H. apply BookingStatus_eqb_eq in Ec. contradiction.
    + cbv zeta.
      set (ns := determineBookingStatus (Booking.startDate b) (Booking.endDate b)
                   (clock w (ticks w))).
      assert (Hnc : Booking.status b <> cancelled).
      { intros H. rewrite H in Ec. discriminate. }
      destruct (BookingStatus_eqb ns (Booking.status b)) eqn:En.
      * apply BookingStatus_eqb_eq in En.
        exists b. cbn [fst snd].
        split; [reflexivity |]. split; [exact Hb |]. split; [exact Hsame |].
        split; [reflexivity |]. intros _. symmetry. exact En.
      * assert (Hl : lookup_booking
                       (snd (Booking_update_status (Booking.id b) ns (tick w)))
                       id = Some (Booking.with_status ns b)).
        { unfold lookup_booking, Booking_findByPk in *. cbn [fst] in *.
          rewrite Booking_update_status_bookings, Hid, find_update_same.
          cbn [tick bookings]. rewrite Hb. reflexivity. }
        rewrite Hid in *. rewrite Hl. cbn [fst snd].
        exists (Booking.with_status ns b).
        split; [reflexivity |]. split; [exact Hl |].
        split; [reflexivity |].
        split; [intros H; contradiction | intros _; reflexivity].
Qed.

Lemma getBooking_fresh_witness :
  let b := Booking.mk 1 "Test User" 1 100 200 375 upcoming 50 in
  let w := mkWorld [] [b] 2 (fun n => 150 + Z.of_nat n) 0 in
  lookup_booking w 1 = Some b
  /\ fst (getBooking 1 w) = Success 200 (Booking.with_status active b)
  /\ lookup_booking (snd (getBooking 1 w)) 1
     = Some (Booking.with_status active b).
Proof.
  intros b w.
  assert (Hb : lookup_booking w 1 = Some b) by reflexivity.
  split; [exact Hb |].
  destruct (getBooking_fresh 1 w) as [_ H].
  destruct (H b Hb) as (b' & H1 & H2 & Hsame & _ & Hst).
  assert (E : b' = Booking.with_status active b).
  { unfold same_but_status in Hsame. rewrite Hsame, Hst; [reflexivity |].
    discriminate. }
  rewrite <- E. split; assumption.
Defined.

(** ** Admission, read back and combined with other requests *)

Lemma createBooking_admitted (userName : string) (unitId : Z)
    (startDate endDate : Date) (w : World) (u : StorageUnit.t) :
  lookup_unit w unitId = Some u ->
  StorageUnit.isAvailable u = true ->
  (0 <? List.length (filter (conflictWhere unitId startDate endDate None)
                            (bookings w)))%nat = false ->
  BookingValidators.validate (validation_time w) userName startDate endDate
    (calculateTotalCost startDate endDate (StorageUnit.pricePerDay u)) = [] ->
  let row := admitted_row userName unitId startDate endDate u w in
  let w' := insert_booking row (tick (tick (tick w))) in
  createBooking userName unitId startDate endDate w
  = (Success 201
       (mkCreated (lookup_booking w' (Booking.id row)) (Booking.id row)
          userName (StorageUnit.name u)
          (differenceInDays endDate startDate + 1)
          (Booking.totalCost row) (Booking.status row)), w').
Proof.
  intros Hu Ha Hc Hv.
  unfold createBooking, post_bookings, lookup_unit in *.
  cbn [run req_userName req_unitId req_startDate req_endDate].
  unfold StorageUnit_findByPk in *. cbn [fst] in *.
  rewrite Hu, Ha. cbn [negb run].
  unfold checkBookingConflict, Booking_findAll. rewrite Hc.
  cbn [run]. unfold Booking_create, new_Date, validation_time in *.
  cbn [clock ticks tick] in *. rewrite Hv. reflexivity.
Qed.

Lemma createBooking_success_inv (userName : string) (unitId : Z)
    (startDate endDate : Date) (w : World) (body : Created) :
  fst (createBooking userName unitId startDate endDate w) = Success 201 body ->
  exists u,
    lookup_unit w unitId = Some u
    /\ StorageUnit.isAvailable u = true
    /\ (0 <? List.length (filter (conflictWhere unitId startDate endDate None)
                                 (bookings w)))%nat = false
    /\ BookingValidators.validate (validation_time w) userName startDate
         endDate
         (calculateTotalCost startDate endDate (StorageUnit.pricePerDay u)) = [].
Proof.
  intros Hbody.
  pose proof (createBooking_eq userName unitId startDate endDate w) as E.
  cbv zeta in E.
  destruct (lookup_unit w unitId) as [u |];
    [| rewrite E in Hbody; discriminate].
  destruct (StorageUnit.isAvailable u) eqn:Ha; cbn [negb] in E;
    [| rewrite E in Hbody; discriminate].
  destruct (0 <? _)%nat eqn:Hc; [rewrite E in Hbody; discriminate |].
  destruct (BookingValidators.validate _ _ _ _ _) eqn:Hv;
    [| rewrite E in Hbody; discriminate].
  exists u. split; [reflexivity |]. split; [exact Ha |].
  split; [reflexivity | exact Hv].
Qed.

Lemma find_app_fresh (id : Z) (l : list Booking.t) (b : Booking.t) :
  (forall x, In x l -> Booking.id x < id) -> Booking.id b = id ->
  find (fun x => Booking.id x =? id) (l ++ [b]) = Some b.
Proof.
  intros Hl Hb. induction l as [| y l IH]; cbn [app find].
  - rewrite Hb, Z.eqb_refl. reflexivity.
  - assert (Hy : Booking.id y < id) by (apply Hl; left; reflexivity).
    assert (E : (Booking.id y =? id) = false) by (apply Z.eqb_neq; lia).
    rewrite E. apply IH. intros x Hx. apply Hl. right. exact Hx.
Qed.

(** X5. On a store whose ids are below the next value of the sequence, an
    admitted booking can be read back: the booking shown in the 201 answer
    is the one row appended to the store, it is found under the id of the
    answer, and it carries the user name, unit, dates, cost and status of
    the answer; the store stays well formed. *)
Theorem createBooking_read_back (userName : string) (unitId : Z)
    (startDate endDate : Date) (w : World) (body : Created) :
  store_ok w ->
  fst (createBooking userName unitId startDate endDate w) = Success 201 body ->
  let w' := snd (createBooking userName unitId startDate endDate w) in
  exists b,
    created_booking body = Some b
    /\ bookings w' = bookings w ++ [b]
    /\ lookup_booking w' (created_bookingId body) = Some b
    /\ Booking.id b = created_bookingId body
    /\ Booking.userName b = userName
    /\ Booking.unitId b = unitId
    /\ Booking.startDate b = startDate
    /\ Booking.endDate b = endDate
    /\ Booking.totalCost b = created_totalCost body
    /\ Booking.status b = created_status body
    /\ store_ok w'.
Proof.
  intros Hok Hbody w'.
  assert (Hok' : store_ok w')
    by (unfold w', createBooking; apply keeps_run;
        [apply keeps_post_bookings | exact Hok]).
  destruct (createBooking_success_inv _ _ _ _ _ _ Hbody) as (u & Hu & Ha & Hc & Hv).
  pose proof (createBooking_admitted userName unitId startDate endDate w u
                Hu Ha Hc Hv) as E. cbv zeta in E.
  unfold w' in *. rewrite E in Hbody, Hok' |- *. cbn [fst snd] in *.
  injection Hbody as <-. cbn [created_booking created_bookingId
                               created_totalCost created_status].
  set (row := admitted_row userName unitId startDate endDate u w) in *.
  assert (Hfind : lookup_booking (insert_booking row (tick (tick (tick w))))
                    (Booking.id row) = Some row).
  { unfold lookup_booking, Booking_findByPk, insert_booking.
    cbn [fst bookings tick]. apply find_app_fresh; [| reflexivity].
    destruct Hok as (_ & _ & Hseq). exact Hseq. }
  exists row.
  split; [exact Hfind |]. split; [reflexivity |]. split; [exact Hfind |].
  repeat (split; [reflexivity |]). exact Hok'.
Qed.

Lemma createBooking_read_back_witness :
  let u := StorageUnit.mk 1 "Medium Storage Unit B2" "10x10 ft" "Downtown" 25
             true None in
  let w := mkWorld [u] [] 1 (fun n => 1709200000000 + Z.of_nat n) 0 in
  store_ok w
  /\ exists body b,
       fst (createBooking "Test User" 1 1709251200000 1710460800000 w)
       = Success 201 body
       /\ created_booking body = Some b
       /\ lookup_booking
            (snd (createBooking "Test User" 1 1709251200000 1710460800000 w))
            (created_bookingId body) = Some b.
Proof.
  intros u w.
  assert (Hok : store_ok w).
  { split; [intros b [] |]. split; [constructor | intros b []]. }
  split; [exact Hok |].
  eexists.
  destruct (createBooking_read_back "Test User" 1 1709251200000 1710460800000
              w _ Hok eq_refl) as (b & H1 & _ & H3 & _).
  exists b. split; [reflexivity |]. split; assumption.
Defined.

(** X6. Once a booking is admitted, on a clock that does not run backwards,
    the availability check of the same unit for any range that overlaps the
    booked one answers available = false and lists the new booking among the
    conflicts. *)
Theorem admitted_range_unavailable (userName : string) (unitId : Z)
    (startDate endDate start' end' : Date) (w : World) (body : Created) :
  monotone_clock w ->
  fst (createBooking userName unitId startDate endDate w) = Success 201 body ->
  start' < end' ->
  overlaps start' end' startDate endDate ->
  let w' := snd (createBooking userName unitId startDate endDate w) in
  exists answer,
    checkAvailability unitId start' end' w' = (Success 200 answer, w')
    /\ available answer = false
    /\ exists b, In b (conflicts answer)
                 /\ Booking.id b = created_bookingId body
                 /\ Booking.startDate b = startDate
                 /\ Booking.endDate b = endDate.
Proof.
  intros Hm Hbody Hse' Ho w'.
  destruct (createBooking_success_inv _ _ _ _ _ _ Hbody) as (u & Hu & Ha & Hc & Hv).
  pose proof (createBooking_admitted userName unitId startDate endDate w u
                Hu Ha Hc Hv) as E. cbv zeta in E.
  unfold w'. rewrite E in Hbody |- *. cbn [fst snd] in *.
  injection Hbody as <-. cbn [created_bookingId].
  apply validate_nil in Hv. destruct Hv as [Hv Hse].
  set (row := admitted_row userName unitId startDate endDate u w).
  set (w1 := insert_booking row (tick (tick (tick w)))).
  rewrite (checkAvailability_eq unitId start' end' w1 Hse').
  assert (Hu1 : lookup_unit w1 unitId = Some u) by exact Hu.
  rewrite Hu1. cbv zeta.
  assert (Hrow : In row (filter (availabilityWhere unitId start' end')
                                (bookings w1))).
  { apply filter_In. split.
    - unfold w1, insert_booking. cbn [bookings].
      apply in_or_app. right. left. reflexivity.
    - unfold availabilityWhere, row.
      cbn [admitted_row Booking.unitId Booking.status Booking.startDate
             Booking.endDate].
      rewrite Z.eqb_refl, (admitted_status_open startDate endDate w Hm Hv Hse).
      rewrite (overlaps_availabilityDates _ _ _ _ Ho). reflexivity. }
  eexists. split; [reflexivity |]. cbn [available conflicts]. split.
  - destruct (filter _ (bookings w1)); [destruct Hrow |].
    cbn [List.length Nat.eqb]. apply andb_false_r.
  - exists row. split; [exact Hrow |]. repeat split; reflexivity.
Qed.

Lemma admitted_range_unavailable_witness :
  let u := StorageUnit.mk 1 "Medium Storage Unit B2" "10x10 ft" "Downtown" 25
             true None in
  let w := mkWorld [u] [] 1 (fun n => 1709200000000 + Z.of_nat n) 0 in
  let w' := snd (createBooking "Test User" 1 1709251200000 1710460800000 w) in
  monotone_clock w
  /\ 1709856000000 < 1711065600000
  /\ overlaps 1709856000000 1711065600000 1709251200000 1710460800000
  /\ exists answer,
       checkAvailability 1 1709856000000 1711065600000 w' = (Success 200 answer, w')
       /\ available answer = false.
Proof.
  intros u w w'.
  assert (Hm : monotone_clock w) by (intros n; cbn [clock w]; lia).
  assert (Hse : 1709856000000 < 1711065600000) by lia.
  assert (Ho : overlaps 1709856000000 1711065600000 1709251200000 1710460800000)
    by (split; lia).
  split; [exact Hm |]. split; [exact Hse |]. split; [exact Ho |].
  destruct (admitted_range_unavailable "Test User" 1 1709251200000 1710460800000
              1709856000000 1711065600000 w _ Hm eq_refl Hse Ho)
    as (answer & H1 & H2 & _).
  exists answer. split; assumption.
Defined.



(** ** The listing of a user's bookings *)

Lemma listBookingsForUser_eq (userName : string) (status : option string)
    (w : World) :
  let found := order_createdAt_desc
                 (filter (listWhere userName status) (bookings w)) in
  let r1 := run (mapM resolve_status found) (tick w) in
  let r2 := run (mapM persist_status (fst r1)) (snd r1) in
  listBookingsForUser userName status w
  = (match all_some (fst r2) with
     | None => Failure InstanceError
     | Some bs => Success 200 (mkListing bs (summarise bs) userName)
     end, snd r2).
Proof.
  cbv zeta. unfold listBookingsForUser, get_bookings.
  cbn [run Booking_findAll_ordered new_Date].
  rewrite run_bind, run_bind.
  destruct (all_some _); reflexivity.
Qed.

Lemma count_status_partition (l : list Booking.t) :
  List.length l
  = (count_status upcoming l + count_status active l
     + count_status completed l + count_status cancelled l)%nat.
Proof.
  unfold count_status. induction l as [| b l IH]; [reflexivity |].
  cbn [filter List.length]. destruct (Booking.status b);
    cbn [BookingStatus_eqb List.length]; lia.
Qed.

(** X8. In the answer of a listing the summary counts the bookings of the
    answer: total is their number, and it is the sum of the four counts by
    status; the user of the answer is the name asked for. *)
Theorem listing_summary_counts (userName : string) (status : option string)
    (w : World) (body : Listing) :
  fst (listBookingsForUser userName status w) = Success 200 body ->
  let s := listing_summary body in
  summary_total s = List.length (listing_bookings body)
  /\ summary_total s
     = (summary_upcoming s + summary_active s + summary_completed s
        + summary_cancelled s)%nat
  /\ summary_cancelled s
     = List.length (filter (fun b => BookingStatus_eqb (Booking.status b) cancelled)
                           (listing_bookings body))
  /\ listing_user body = userName.
Proof.
  intros H. pose proof (listBookingsForUser_eq userName status w) as E.
  cbv zeta in E. rewrite E in H. cbn [fst] in H.
  destruct (all_some _) as [bs |]; [| discriminate].
  injection H as <-. cbn [listing_summary listing_bookings listing_user summarise
                           summary_total summary_upcoming summary_active
                           summary_completed summary_cancelled].
  split; [reflexivity |]. split; [apply count_status_partition |].
  split; reflexivity.
Qed.

Lemma listing_summary_counts_witness :
  let b1 := Booking.mk 1 "Test User" 1 100 200 375 cancelled 50 in
  let b2 := Booking.mk 2 "Test User" 1 100 200 375 upcoming 60 in
  let w := mkWorld [] [b1; b2] 3 (fun n => 1000 + Z.of_nat n) 0 in
  exists body,
    fst (listBookingsForUser "test" None w) = Success 200 body
    /\ summary_total (listing_summary body) = 2%nat
    /\ summary_total (listing_summary body)
       = (summary_upcoming (listing_summary body)
          + summary_active (listing_summary body)
          + summary_completed (listing_summary body)
          + summary_cancelled (listing_summary body))%nat.
Proof.
  intros b1 b2 w. eexists. split; [reflexivity |].
  split; [reflexivity |].
  apply (listing_summary_counts "test" None w _ eq_refl).
Defined.










(** ** What reads and cancellations leave alone *)

Lemma same_but_status_refl (b : Booking.t) : same_but_status b b.
Proof. unfold same_but_status. symmetry. apply with_status_same. Qed.

Lemma same_but_status_set (id : Z) (s : BookingStatus) (b b' : Booking.t) :
  same_but_status b b' -> same_but_status b (set_status_of id s b').
Proof.
  unfold same_but_status, set_status_of. intros H.
  destruct (Booking.id b' =? id); [| exact H].
  rewrite H. reflexivity.
Qed.

Lemma Forall2_same_refl (l : list Booking.t) : Forall2 same_but_status l l.
Proof.
  induction l; constructor; [apply same_but_status_refl | assumption].
Qed.

Lemma status_changes_only_update (w0 w : World) (id : Z) (s : BookingStatus) :
  status_changes_only w0 w ->
  status_changes_only w0 (snd (Booking_update_status id s w)).
Proof.
  intros (H & Hu & Hq). unfold Booking_update_status, set_bookings.
  cbn [snd]. split; [| split; assumption]. cbn [bookings].
  induction H as [| b b' l l' Hb Hl IH]; cbn [map]; constructor.
  - apply same_but_status_set. exact Hb.
  - exact IH.
Qed.

Lemma keeps_reads (P : World -> Prop) :
  (forall w, P w -> P (tick w)) ->
  (forall id s w, P w -> P (snd (Booking_update_status id s w))) ->
  (forall userName status, keeps P (get_bookings userName status))
  /\ (forall id, keeps P (get_booking id))
  /\ (forall id, keeps P (put_booking_cancel id)).
Proof.
  intros Htick Hupd. split; [| split].
  - intros userName status. unfold get_bookings. cbn [keeps].
    split; [keeps_read |]. intros found.
    split; [intros w H; apply Htick; exact H |]. intros now.
    apply keeps_bind.
    + apply keeps_mapM. intros b. unfold resolve_status.
      destruct (negb (BookingStatus_eqb (Booking.status b) cancelled));
        cbn [keeps]; [| exact I].
      split; [intros w H; apply Htick; exact H | intros; exact I].
    + intros resolved. apply keeps_bind.
      * apply keeps_mapM. intros [b ns]. unfold persist_status.
        destruct (negb (BookingStatus_eqb ns (Booking.status b))); cbn [keeps].
        -- split; [intros w H; apply Hupd; exact H |].
           intros _. split; [keeps_read | intros; exact I].
        -- split; [keeps_read | intros; exact I].
      * intros reloaded. destruct (all_some reloaded); exact I.
  - intros id. unfold get_booking. cbn [keeps]. split; [keeps_read |].
    intros [b |]; [| exact I].
    destruct (negb (BookingStatus_eqb (Booking.status b) cancelled));
      cbn [keeps]; [| exact I].
    split; [intros w H; apply Htick; exact H |]. intros now.
    destruct (negb (BookingStatus_eqb _ (Booking.status b)));
      cbn [keeps]; [| exact I].
    split; [intros w H; apply Hupd; exact H |].
    intros _. split; [keeps_read |].
    intros [b' |]; exact I.
  - intros id. unfold put_booking_cancel. cbn [keeps]. split; [keeps_read |].
    intros [b |]; [| exact I].
    destruct (BookingStatus_eqb (Booking.status b) cancelled); [exact I |].
    destruct (BookingStatus_eqb (Booking.status b) completed); [exact I |].
    cbn [keeps]. split; [| intros; exact I].
    intros w H. apply Hupd. exact H.
Qed.

(** X10. Listing bookings, fetching a booking and cancelling a booking
    change nothing but the status of stored bookings: no booking is added
    or removed, no id, user name, unit, date, cost or creation time is
    altered, the units and the id sequence are untouched; the availability
    check and the unit details leave the whole world as it is. *)
Theorem reads_change_status_only (w : World) :
  (forall userName status,
      status_changes_only w (snd (listBookingsForUser userName status w)))
  /\ (forall id, status_changes_only w (snd (getBooking id w)))
  /\ (forall id, status_changes_only w (snd (cancelBooking id w)))
  /\ (forall unitId startDate endDate,
      snd (run (get_unit_availability unitId startDate endDate) w) = w)
  /\ (forall unitId, snd (run (get_unit unitId) w) = w).
Proof.
  assert (H0 : status_changes_only w w)
    by (split; [apply Forall2_same_refl | split; reflexivity]).
  destruct (keeps_reads (status_changes_only w)) as (Hl & Hg & Hc).
  { intros w1 H. exact H. }
  { intros id s w1 H. apply status_changes_only_update. exact H. }
  split; [| split; [| split; [| split]]].
  - intros userName status. unfold listBookingsForUser.
    apply keeps_run; [apply Hl | exact H0].
  - intros id. unfold getBooking. apply keeps_run; [apply Hg | exact H0].
  - intros id. unfold cancelBooking. apply keeps_run; [apply Hc | exact H0].
  - intros unitId [| | s] [| | e]; try reflexivity.
    unfold get_unit_availability.
    destruct (s >=? e); [reflexivity |]. cbn [run].
    unfold StorageUnit_findByPk.
    destruct (find _ (storage_units w)); reflexivity.
  - intros unitId. unfold get_unit. cbn [run].
    unfold StorageUnit_findByPk_with_bookings.
    destruct (find _ (storage_units w)); reflexivity.
Qed.

(** X11. Every request handled on a well-formed store leaves it well
    formed: stored ranges stay well ordered, ids stay unique and below the
    next value of the sequence, after an admission (admitted or rejected), a
    listing, a fetch and a cancellation. *)
Theorem store_ok_preserved (w : World) :
  store_ok w ->
  (forall userName unitId startDate endDate,
      store_ok (snd (createBooking userName unitId startDate endDate w)))
  /\ (forall userName status,
      store_ok (snd (listBookingsForUser userName status w)))
  /\ (forall id, store_ok (snd (getBooking id w)))
  /\ (forall id, store_ok (snd (cancelBooking id w))).
Proof.
  intros H. split; [| split; [| split]]; intros.
  - unfold createBooking. apply keeps_run; [apply keeps_post_bookings | exact H].
  - unfold listBookingsForUser.
    apply keeps_run; [apply keeps_get_bookings | exact H].
  - unfold getBooking. apply keeps_run; [apply keeps_get_booking | exact H].
  - unfold cancelBooking.
    apply keeps_run; [apply keeps_put_booking_cancel | exact H].
Qed.

Lemma store_ok_preserved_witness :
  let u := StorageUnit.mk 1 "Medium Storage Unit B2" "10x10 ft" "Downtown" 25
             true None in
  let w := mkWorld [u] [] 1 (fun n => 1709200000000 + Z.of_nat n) 0 in
  store_ok w
  /\ store_ok (snd (createBooking "Test User" 1 1709251200000 1710460800000 w)).
Proof.
  intros u w.
  assert (Hok : store_ok w).
  { split; [intros b [] |]. split; [constructor | intros b []]. }
  split; [exact Hok |].
  apply (proj1 (store_ok_preserved w Hok)).
Defined.

Lemma store_ok_admissions_witness :
  let u := StorageUnit.mk 1 "Medium Storage Unit B2" "10x10 ft" "Downtown" 25
             true None in
  let w := mkWorld [u] [] 1 (fun n => 1709200000000 + Z.of_nat n) 0 in
  let r1 := mkRequest "Test User" 1 1709251200000 1710460800000 in
  let r2 := mkRequest "Other User" 1 1709856000000 1711065600000 in
  store_ok w
  /\ store_ok (snd (exec [0; 0; 1; 1; 0; 0; 0; 1; 1; 1]%nat
                      (map post_bookings [r1; r2]) w)).
Proof.
  intros u w r1 r2.
  assert (Hok : store_ok w).
  { split; [intros b [] |]. split; [constructor | intros b []]. }
  split; [exact Hok |].
  exact (store_ok_admissions _ [r1; r2] w Hok).
Defined.

(** ** The validation middleware *)

Lemma length_trimStart (s : string) :
  (String.length (trimStart s) <= String.length s)%nat.
Proof.
  induction s as [| c s IH]; cbn [trimStart]; [lia |].
  destruct (is_space c); cbn [String.length] in *; lia.
Qed.

Lemma trimStart_head (c : ascii) (s : string) :
  trimStart (String c s) = String c s -> is_space c = false.
Proof.
  cbn [trimStart]. destruct (is_space c); [| reflexivity].
  intros H. pose proof (length_trimStart s) as L.
  rewrite H in L. cbn [String.length] in L. lia.
Qed.

Lemma trimStart_idem (s : string) : trimStart (trimStart s) = trimStart s.
Proof.
  induction s as [| c s IH]; [reflexivity |].
  cbn [trimStart]. destruct (is_space c) eqn:E; [exact IH |].
  cbn [trimStart]. rewrite E. reflexivity.
Qed.

Lemma trimStart_trimEnd (t : string) :
  trimStart t = t -> trimStart (trimEnd t) = trimEnd t.
Proof.
  destruct t as [| c t]; [reflexivity |].
  intros H. apply trimStart_head in H. cbn [trimEnd].
  destruct (trimEnd t); [rewrite H |]; cbn [trimStart]; rewrite H; reflexivity.
Qed.



Lemma trim_notEmpty (s : string) :
  (String.length (trim s) =? 0)%nat = false ->
  BookingValidators.notEmpty (trim s) = true.
Proof.
  intros H. unfold BookingValidators.notEmpty.
  assert (Hfix : trimStart (trim s) = trim s).
  { unfold trim. apply trimStart_trimEnd. apply trimStart_idem. }
  destruct (trim s) as [| c r]; [discriminate |].
  apply trimStart_head in Hfix. cbn [all_space]. rewrite Hfix. reflexivity.
Qed.

Lemma trim_len (s : string) :
  (String.length (trim s) =? 0)%nat = false ->
  (255 <? String.length (trim s))%nat = false ->
  BookingValidators.len (trim s) = true.
Proof.
  intros H0 H255. unfold BookingValidators.len. cbv zeta.
  apply Nat.eqb_neq in H0. apply Nat.ltb_ge in H255.
  apply andb_true_iff. split; apply Nat.leb_le; lia.
Qed.




Lemma validateBookingData_inv (tz : Z) (now : Date) (body : BookingBody)
    (r : BookingRequest) (days : Z) :
  validateBookingData tz now body = inr (r, days) ->
  exists name q s e,
    body_userName body = JsString name
    /\ body_unitId body = JsNumber q
    /\ body_startDate body = QDate s /\ body_endDate body = QDate e
    /\ r = mkRequest (trim name) (Qfloor q) s e
    /\ days = bookingDays s e
    /\ (String.length (trim name) =? 0)%nat = false
    /\ (255 <? String.length (trim name))%nat = false
    /\ Number_isInteger (JsNumber q) = true /\ Qle_bool q 0 = false
    /\ s < e /\ startOfDay tz now <= s /\ bookingDays s e <= 365.
Proof.
  unfold validateBookingData. intros H.
  destruct (negb (truthy (body_userName body)) || _ || _ || _); [discriminate |].
  destruct (body_userName body) as [| | | | name |]; try discriminate.
  destruct (String.length (trim name) =? 0)%nat eqn:E0; [discriminate |].
  destruct (255 <? String.length (trim name))%nat eqn:E255; [discriminate |].
  destruct (body_unitId body) as [| | | q | |]; try discriminate.
  destruct (negb (Number_isInteger (JsNumber q)) || Qle_bool q 0) eqn:Eu;
    [discriminate |].
  apply orb_false_iff in Eu. destruct Eu as [Ei Ep].
  apply negb_false_iff in Ei.
  destruct (body_startDate body) as [| | s]; try discriminate;
    destruct (body_endDate body) as [| | e]; try discriminate.
  cbv zeta in H.
  destruct (s >=? e) eqn:Ese; [discriminate |].
  destruct (s <? startOfDay tz now) eqn:Et; [discriminate |].
  destruct (bookingDays s e >? 365) eqn:Ed; [discriminate |].
  injection H as <- <-.
  rewrite Z.geb_leb in Ese. apply Z.leb_gt in Ese. apply Z.ltb_ge in Et.
  rewrite Z.gtb_ltb in Ed. apply Z.ltb_ge in Ed.
  exists name, q, s, e. repeat (split; [first [reflexivity | assumption] |]).
  exact Ed.
Qed.

Lemma validateBookingData_names (tz : Z) (now : Date) (body : BookingBody)
    (r : BookingRequest) (days : Z) :
  validateBookingData tz now body = inr (r, days) ->
  BookingValidators.notEmpty (req_userName r) = true
  /\ BookingValidators.len (req_userName r) = true.
Proof.
  intros H. destruct (validateBookingData_inv _ _ _ _ _ H)
    as (name & q & s & e & _ & _ & _ & _ & -> & _ & E0 & E255 & _).
  cbn [req_userName]. split; [apply trim_notEmpty | apply trim_len]; assumption.
Qed.

Lemma validateBookingData_bounds (tz : Z) (now : Date) (body : BookingBody)
    (r : BookingRequest) (days : Z) :
  validateBookingData tz now body = inr (r, days) ->
  req_startDate r < req_endDate r
  /\ days = bookingDays (req_startDate r) (req_endDate r)
  /\ days <= 365.
Proof.
  intros H. destruct (validateBookingData_inv _ _ _ _ _ H)
    as (name & q & s & e & _ & _ & _ & _ & -> & -> & _ & _ & _ & _ & Hse & _ & Hd).
  cbn [req_startDate req_endDate]. auto.
Qed.

Lemma validateBookingData_today (tz : Z) (now : Date) (body : BookingBody)
    (r : BookingRequest) (days : Z) :
  validateBookingData tz now body = inr (r, days) ->
  startOfDay tz now <= req_startDate r.
Proof.
  intros H. destruct (validateBookingData_inv _ _ _ _ _ H)
    as (name & q & s & e & _ & _ & _ & _ & -> & _ & _ & _ & _ & _ & _ & Ht & _).
  exact Ht.
Qed.





(** X15. A validated request is never turned down by the model for its
    user name, its end date or its cost: on units with non-negative prices,
    the only validation error that its admission can end in is
    'Start date cannot be in the past', and then the request starts today,
    earlier than the clock read at its validation. *)
Theorem validated_request_rejection (tz : Z) (now : Date) (body : BookingBody)
    (r : BookingRequest) (days : Z) (w : World) (messages : list string) :
  validateBookingData tz now body = inr (r, days) ->
  priced w ->
  fst (run (post_bookings r) w) = Failure (ValidationError messages) ->
  messages = ["Start date cannot be in the past"%string]
  /\ startOfDay tz now <= req_startDate r < validation_time w
  /\ bookings (snd (run (post_bookings r) w)) = bookings w.
Proof.
  intros Hval Hpr Hfail.
  destruct (validateBookingData_names tz now body r days Hval) as [Hne Hlen].
  destruct (validateBookingData_bounds tz now body r days Hval)
    as (Hse & _ & _).
  pose proof (validateBookingData_today tz now body r days Hval) as Htoday.
  destruct r as [name unitId s e].
  cbn [req_userName req_unitId req_startDate req_endDate] in *.
  change (run (post_bookings (mkRequest name unitId s e)) w)
    with (createBooking name unitId s e w) in *.
  pose proof (createBooking_eq name unitId s e w) as E. cbv zeta in E.
  destruct (lookup_unit w unitId) as [u |] eqn:Hu;
    [| rewrite E in Hfail; discriminate].
  destruct (StorageUnit.isAvailable u); cbn [negb] in E;
    [| rewrite E in Hfail; discriminate].
  destruct (0 <? _)%nat; [rewrite E in Hfail; discriminate |].
  assert (Hcost : (0 <= calculateTotalCost s e (StorageUnit.pricePerDay u))%Q).
  { apply calculateTotalCost_nonneg; [lia |].
    apply Hpr. apply (lookup_unit_In w unitId u Hu). }
  rewrite (validate_cases _ _ _ _ _ Hne Hlen Hse Hcost) in E.
  destruct (s <? validation_time w) eqn:Hv.
  - rewrite E in Hfail |- *. cbn [fst snd] in *.
    injection Hfail as <-. apply Z.ltb_lt in Hv.
    split; [reflexivity |]. split; [lia | reflexivity].
  - destruct E as [[b Hb] _]. rewrite Hb in Hfail. discriminate.
Qed.

Lemma validated_request_rejection_witness :
  let u := StorageUnit.mk 1 "Medium Storage Unit B2" "10x10 ft" "Downtown" 25
             true None in
  let w := mkWorld [u] [] 1 (fun n => 1709287200000 + Z.of_nat n) 0 in
  let body := mkBody (JsString "Test User") (JsNumber 1)
                (QDate 1709251200000) (QDate 1710460800000) in
  let r := mkRequest "Test User" 1 1709251200000 1710460800000 in
  validateBookingData 0 1709287200000 body = inr (r, 14)
  /\ priced w
  /\ fst (run (post_bookings r) w)
     = Failure (ValidationError ["Start date cannot be in the past"%string])
  /\ startOfDay 0 1709287200000 <= req_startDate r < validation_time w.
Proof.
  intros u w body r.
  assert (H : validateBookingData 0 1709287200000 body = inr (r, 14))
    by (vm_compute; reflexivity).
  assert (Hp : priced w).
  { intros x [<- | []]. vm_compute. discriminate. }
  assert (Hf : fst (run (post_bookings r) w)
               = Failure (ValidationError ["Start date cannot be in the past"%string]))
    by (vm_compute; reflexivity).
  repeat (split; [assumption |]).
  apply (validated_request_rejection 0 1709287200000 body r 14 w _ H Hp Hf).
Defined.




Lemma substring_0_length (m : nat) (s : string) :
  (String.length (String.substring 0 m s) <= m)%nat.
Proof.
  revert s. induction m as [| m IH]; intros s.
  - destruct s; cbn; lia.
  - destruct s as [| c s]; cbn [String.substring String.length]; [lia |].
    specialize (IH s). lia.
Qed.

Lemma substring_0_In (m : nat) (s : string) (c : ascii) :
  In c (list_ascii_of_string (String.substring 0 m s)) ->
  In c (list_ascii_of_string s).
Proof.
  revert s. induction m as [| m IH]; intros s.
  - destruct s; cbn; intros [].
  - destruct s as [| d s]; cbn [String.substring list_ascii_of_string];
      [intros [] |].
    intros [H | H]; [left; exact H | right; apply IH; exact H].
Qed.

Lemma remove_angle_brackets_In (s : string) (c : ascii) :
  In c (list_ascii_of_string (remove_angle_brackets s)) ->
  c <> "<"%char /\ c <> ">"%char.
Proof.
  induction s as [| d s IH]; cbn [remove_angle_brackets list_ascii_of_string];
    [intros [] |].
  destruct ((d =? "<") || (d =? ">"))%char eqn:E; [exact IH |].
  apply orb_false_iff in E. destruct E as [E1 E2].
  apply Ascii.eqb_neq in E1. apply Ascii.eqb_neq in E2.
  cbn [list_ascii_of_string]. intros [<- | H]; [split; assumption | apply IH; exact H].
Qed.

(** X17. The output of [sanitizeInput] holds no angle bracket and is at most
    1000 characters long, whatever the input. *)
Theorem sanitizeInput_safe (input : string) :
  (String.length (sanitizeInput input) <= 1000)%nat
  /\ forall c, In c (list_ascii_of_string (sanitizeInput input)) ->
               c <> "<"%char /\ c <> ">"%char.
Proof.
  unfold sanitizeInput. split; [apply substring_0_length |].
  intros c H. apply substring_0_In in H.
  apply (remove_angle_brackets_In _ _ H).
Qed.




(** ** The rate limiter *)

Lemma Map_get_set_same (k : string) (v : ClientRecord) (m : RequestCounts) :
  Map_get k (Map_set k v m) = Some v.
Proof.
  unfold Map_get, Map_set. rewrite String.eqb_refl. reflexivity.
Qed.

Lemma Map_get_set_other (k k' : string) (v : ClientRecord) (m : RequestCounts) :
  k' <> k -> Map_get k' (Map_set k v m) = Map_get k' m.
Proof.
  intros H. unfold Map_get, Map_set.
  apply String.eqb_neq in H. rewrite H. reflexivity.
Qed.

(** A request of a client whose window is open. *)
Lemma basicRateLimit_open (maxRequests : nat) (windowMs : Z) (clientId : string)
    (now : Z) (m : RequestCounts) (r : ClientRecord) :
  Map_get clientId m = Some r -> now <= rl_resetTime r ->
  let result := basicRateLimit maxRequests windowMs clientId now m in
  fst result = negb (maxRequests <=? rl_count r)%nat
  /\ Map_get clientId (snd result)
     = Some (if (maxRequests <=? rl_count r)%nat then r
             else mkClientRecord (S (rl_count r)) (rl_resetTime r)).
Proof.
  intros Hm Hr. cbv zeta. unfold basicRateLimit.
  assert (E : (now >? rl_resetTime r) = false)
    by (rewrite Z.gtb_ltb; apply Z.ltb_ge; exact Hr).
  assert (Hc : Map_get clientId (cleanUp now m) = Some r).
  { unfold Map_get, cleanUp in *. rewrite Hm, E. reflexivity. }
  rewrite Hc, E.
  destruct (maxRequests <=? rl_count r)%nat; cbn [fst snd negb].
  - split; [reflexivity | exact Hc].
  - split; [reflexivity | apply Map_get_set_same].
Qed.

(** A request of a client without a record, or whose window is over. *)
Lemma basicRateLimit_fresh (maxRequests : nat) (windowMs : Z) (clientId : string)
    (now : Z) (m : RequestCounts) :
  (forall r, Map_get clientId m = Some r -> rl_resetTime r < now) ->
  let result := basicRateLimit maxRequests windowMs clientId now m in
  fst result = negb (maxRequests <=? 0)%nat
  /\ Map_get clientId (snd result)
     = Some (mkClientRecord (if (maxRequests <=? 0)%nat then 0 else 1)
                            (now + windowMs)).
Proof.
  intros Hm. cbv zeta. unfold basicRateLimit.
  assert (Hc : Map_get clientId (cleanUp now m) = None).
  { unfold Map_get, cleanUp in *. destruct (m clientId) as [r |]; [| reflexivity].
    assert (E : (now >? rl_resetTime r) = true)
      by (apply Z.gtb_lt; apply Hm; reflexivity).
    rewrite E. reflexivity. }
  rewrite Hc. cbn [rl_count rl_resetTime].
  destruct (maxRequests <=? 0)%nat; cbn [fst snd negb];
    (split; [reflexivity | apply Map_get_set_same]).
Qed.

Lemma rateLimit_all_open (maxRequests : nat) (windowMs : Z) (clientId : string)
    (times : list Z) (m : RequestCounts) (r : ClientRecord) :
  Map_get clientId m = Some r ->
  (forall t, In t times -> t <= rl_resetTime r) ->
  fst (rateLimit_all maxRequests windowMs clientId times m)
  = (repeat true (Nat.min (maxRequests - rl_count r) (List.length times))
     ++ repeat false (List.length times - (maxRequests - rl_count r)))%list.
Proof.
  revert m r. induction times as [| t times IH]; intros m r Hm Ht.
  - rewrite Nat.min_0_r. reflexivity.
  - cbn [rateLimit_all].
    destruct (basicRateLimit_open maxRequests windowMs clientId t m r Hm)
      as [Hp Hg]; [apply Ht; left; reflexivity |].
    destruct (basicRateLimit maxRequests windowMs clientId t m) as [passed m1].
    cbn [fst snd] in Hp, Hg.
    specialize (IH m1 _ Hg).
    destruct (rateLimit_all maxRequests windowMs clientId times m1) as [rest m2].
    cbn [fst] in *. rewrite IH, Hp.
    2:{ intros t' Ht'.
        assert (Hle : t' <= rl_resetTime r) by (apply Ht; right; exact Ht').
        destruct (maxRequests <=? rl_count r)%nat; exact Hle. }
    cbn [List.length].
    destruct (maxRequests <=? rl_count r)%nat eqn:E;
      [apply Nat.leb_le in E | apply Nat.leb_gt in E]; cbn [negb rl_count].
    + replace (maxRequests - rl_count r)%nat with 0%nat by lia.
      cbn [Nat.min repeat app]. rewrite ?Nat.sub_0_r. reflexivity.
    + replace (Nat.min (maxRequests - rl_count r) (S (List.length times)))
        with (S (Nat.min (maxRequests - S (rl_count r)) (List.length times)))
        by lia.
      replace (S (List.length times) - (maxRequests - rl_count r))%nat
        with (List.length times - (maxRequests - S (rl_count r)))%nat by lia.
      reflexivity.
Qed.

(** X19. Of the requests that a client without a record makes within one
    window (none later than the first one plus [windowMs]), the first
    [maxRequests] pass and all the others are answered 429. *)
Theorem rateLimit_window (maxRequests : nat) (windowMs : Z) (clientId : string)
    (first : Z) (later : list Z) (m : RequestCounts) :
  Map_get clientId m = None ->
  (forall t, In t later -> t <= first + windowMs) ->
  let n := S (List.length later) in
  fst (rateLimit_all maxRequests windowMs clientId (first :: later) m)
  = (repeat true (Nat.min maxRequests n) ++ repeat false (n - maxRequests))%list.
Proof.
  intros Hm Ht n. unfold n. cbn [rateLimit_all].
  destruct (basicRateLimit_fresh maxRequests windowMs clientId first m)
    as [Hp Hg]; [intros r Hr; rewrite Hm in Hr; discriminate |].
  destruct (basicRateLimit maxRequests windowMs clientId first m) as [passed m1].
  cbn [fst snd] in Hp, Hg.
  pose proof (rateLimit_all_open maxRequests windowMs clientId later m1 _ Hg) as R.
  destruct (rateLimit_all maxRequests windowMs clientId later m1) as [rest m2].
  cbn [fst] in *. rewrite R, Hp by exact Ht. cbn [rl_count].
  destruct (maxRequests <=? 0)%nat eqn:E;
    [apply Nat.leb_le in E | apply Nat.leb_gt in E]; cbn [negb].
  - replace maxRequests with 0%nat by lia.
    cbn [Nat.min repeat app]. rewrite ?Nat.sub_0_r. reflexivity.
  - replace (Nat.min maxRequests (S (List.length later)))
      with (S (Nat.min (maxRequests - 1) (List.length later))) by lia.
    replace (S (List.length later) - maxRequests)%nat
      with (List.length later - (maxRequests - 1))%nat by lia.
    reflexivity.
Qed.

Lemma rateLimit_window_witness :
  Map_get "10.0.0.1" Map_empty = None
  /\ (forall t, In t [1010; 1020; 1900] -> t <= 1000 + 900)
  /\ fst (rateLimit_all 2 900 "10.0.0.1" [1000; 1010; 1020; 1900] Map_empty)
     = [true; true; false; false].
Proof.
  assert (H1 : Map_get "10.0.0.1" Map_empty = None) by reflexivity.
  assert (H2 : forall t, In t [1010; 1020; 1900] -> t <= 1000 + 900).
  { intros t [<- | [<- | [<- | []]]]; lia. }
  split; [exact H1 |]. split; [exact H2 |].
  exact (rateLimit_window 2 900 "10.0.0.1" 1000 [1010; 1020; 1900] Map_empty H1 H2).
Defined.

(** X20. Once its window is over, a client is let through again (when
    [maxRequests] is positive) and a new window starts at that request;
    the records of the other clients are those that the clean-up keeps. *)
Theorem rateLimit_expiry (maxRequests : nat) (windowMs : Z) (clientId : string)
    (now : Z) (m : RequestCounts) (r : ClientRecord) :
  Map_get clientId m = Some r -> rl_resetTime r < now ->
  (0 < maxRequests)%nat ->
  let result := basicRateLimit maxRequests windowMs clientId now m in
  fst result = true
  /\ Map_get clientId (snd result) = Some (mkClientRecord 1 (now + windowMs))
  /\ forall other, other <> clientId ->
       Map_get other (snd result) = Map_get other (cleanUp now m).
Proof.
  intros Hm Hr HM. cbv zeta.
  destruct (basicRateLimit_fresh maxRequests windowMs clientId now m) as [Hp Hg].
  { intros r' Hr'. rewrite Hm in Hr'. injection Hr' as <-. exact Hr. }
  assert (E : (maxRequests <=? 0)%nat = false) by (apply Nat.leb_gt; exact HM).
  rewrite E in Hp, Hg. split; [exact Hp |]. split; [exact Hg |].
  intros other Ho. unfold basicRateLimit.
  assert (Hc : Map_get clientId (cleanUp now m) = None).
  { unfold Map_get, cleanUp in *. rewrite Hm.
    assert (E' : (now >? rl_resetTime r) = true) by (apply Z.gtb_lt; exact Hr).
    rewrite E'. reflexivity. }
  rewrite Hc. cbn [rl_count rl_resetTime]. rewrite E. cbn [snd].
  rewrite !Map_get_set_other by exact Ho. reflexivity.
Qed.

Lemma rateLimit_expiry_witness :
  let m := Map_set "10.0.0.1" (mkClientRecord 100 1900) Map_empty in
  Map_get "10.0.0.1" m = Some (mkClientRecord 100 1900)
  /\ 1900 < 1901 /\ (0 < 100)%nat
  /\ fst (basicRateLimit 100 900 "10.0.0.1" 1901 m) = true.
Proof.
  intros m.
  assert (H1 : Map_get "10.0.0.1" m = Some (mkClientRecord 100 1900))
    by reflexivity.
  assert (H2 : 1900 < 1901) by lia.
  assert (H3 : (0 < 100)%nat) by lia.
  repeat (split; [assumption |]).
  apply (rateLimit_expiry 100 900 "10.0.0.1" 1901 m _ H1 H2 H3).
Defined.

(** ** The details of a unit *)

(** X21. [GET /api/units/:id] answers NotFound exactly when the
    availability check would; otherwise it shows the unit together with
    exactly its bookings of status upcoming or active, and every conflict
    that an availability check of the unit reports, for any range, is among
    the bookings shown. *)
Theorem unit_details_cover_conflicts (unitId : Z) (w : World) :
  (lookup_unit w unitId = None ->
   run (get_unit unitId) w = (Failure UnitNotFound, w))
  /\ (forall u, lookup_unit w unitId = Some u ->
      exists d,
        run (get_unit unitId) w = (Success 200 d, w)
        /\ details_unit d = u
        /\ (forall b, In b (details_bookings d) <->
                      In b (bookings w) /\ Booking.unitId b = unitId
                      /\ (Booking.status b = upcoming \/ Booking.status b = active))
        /\ (forall startDate endDate answer,
              fst (checkAvailability unitId startDate endDate w)
              = Success 200 answer ->
              incl (conflicts answer) (details_bookings d))).
Proof.
  unfold get_unit, lookup_unit. cbn [run].
  unfold StorageUnit_findByPk_with_bookings, StorageUnit_findByPk. cbn [fst].
  split.
  - intros H. rewrite H. reflexivity.
  - intros u Hu. rewrite Hu. cbn [run]. eexists. split; [reflexivity |].
    cbn [details_unit details_bookings]. split; [reflexivity |].
    apply find_some in Hu. destruct Hu as [_ Hid]. apply Z.eqb_eq in Hid.
    assert (Hshown : forall b,
               In b (filter (fun b => (Booking.unitId b =? StorageUnit.id u)
                                      && is_open (Booking.status b)) (bookings w))
               <-> In b (bookings w) /\ Booking.unitId b = unitId
                   /\ (Booking.status b = upcoming \/ Booking.status b = active)).
    { intros b. rewrite filter_In, andb_true_iff, Z.eqb_eq, is_open_iff, Hid.
      tauto. }
    split; [exact Hshown |].
    intros s e answer Ha b Hb. apply Hshown.
    unfold checkAvailability, get_unit_availability in Ha.
    destruct (s >=? e); [discriminate |]. cbn [run] in Ha.
    unfold StorageUnit_findByPk in Ha.
    destruct (find _ (storage_units w)); [| discriminate].
    cbn [run Booking_findAll fst] in Ha. injection Ha as <-.
    cbn [conflicts] in Hb. apply filter_In in Hb. destruct Hb as [Hin Hw].
    unfold availabilityWhere in Hw.
    apply andb_true_iff in Hw. destruct Hw as [Hw _].
    apply andb_true_iff in Hw. destruct Hw as [Hu' Ho].
    apply Z.eqb_eq in Hu'. apply is_open_iff in Ho. auto.
Qed.

Lemma unit_details_cover_conflicts_witness :
  let u := StorageUnit.mk 1 "Medium Storage Unit B2" "10x10 ft" "Downtown" 25
             true None in
  let b1 := Booking.mk 1 "Test User" 1 100 200 375 cancelled 50 in
  let b2 := Booking.mk 2 "Test User" 1 100 200 375 upcoming 60 in
  let w := mkWorld [u] [b1; b2] 3 (fun n => 10 + Z.of_nat n) 0 in
  lookup_unit w 1 = Some u
  /\ exists d, run (get_unit 1) w = (Success 200 d, w)
               /\ details_bookings d = [b2].
Proof.
  intros u b1 b2 w.
  assert (Hu : lookup_unit w 1 = Some u) by reflexivity.
  split; [exact Hu |].
  destruct (proj2 (unit_details_cover_conflicts 1 w) u Hu) as (d & Hd & _).
  exists d. split; [exact Hd |].
  injection Hd as <-. reflexivity.
Defined.

(** ** The days and the total shown by the booking form *)





(** ** The availability check and the admission agree *)

(** X23. On well-ordered stored bookings, for an existing unit and a range
    with startDate < endDate, the availability check answers
    available = false exactly when an admission request for that unit and
    range, handled at that moment, is rejected with Unavailable or with
    Conflict. *)
Theorem availability_agrees_with_admission (userName : string) (unitId : Z)
    (startDate endDate : Date) (w : World) (u : StorageUnit.t)
    (answer : Availability) :
  lookup_unit w unitId = Some u ->
  startDate < endDate ->
  well_ordered w ->
  fst (checkAvailability unitId startDate endDate w) = Success 200 answer ->
  (available answer = false <->
   fst (createBooking userName unitId startDate endDate w) = Failure Unavailable
   \/ fst (createBooking userName unitId startDate endDate w) = Failure Conflict).
Proof.
  intros Hu Hse Hwo Ha.
  rewrite (checkAvailability_eq _ _ _ _ Hse), Hu in Ha. cbv zeta in Ha.
  cbn [fst] in Ha. injection Ha as <-. cbn [available].
  pose proof (createBooking_eq userName unitId startDate endDate w) as E.
  cbv zeta in E. rewrite Hu in E.
  assert (Hse' : startDate <= endDate) by lia.
  pose proof (conflict_found_iff w unitId startDate endDate Hse' Hwo) as Hconf.
  assert (Hnil : (List.length (filter (availabilityWhere unitId startDate endDate)
                                      (bookings w)) =? 0)%nat = true
                 <-> ~ exists b, conflicting w unitId startDate endDate b).
  { rewrite filter_empty_iff. split.
    - intros H [b Hb]. assert (Hin : In b (bookings w)) by apply Hb.
      apply (availabilityWhere_iff w unitId startDate endDate b Hse' Hwo Hin) in Hb.
      rewrite (H b Hin) in Hb. discriminate.
    - intros H b Hin.
      destruct (availabilityWhere unitId startDate endDate b) eqn:Eb;
        [| reflexivity].
      exfalso. apply H. exists b.
      apply (availabilityWhere_iff w unitId startDate endDate b Hse' Hwo Hin).
      exact Eb. }
  destruct (StorageUnit.isAvailable u); cbn [negb andb] in *.
  2:{ rewrite E. cbn [fst]. split; [left; reflexivity | reflexivity]. }
  destruct (0 <? List.length (filter (conflictWhere unitId startDate endDate None)
                                     (bookings w)))%nat eqn:Hc.
  - rewrite E. cbn [fst]. split; [right; reflexivity |]. intros _.
    destruct (List.length (filter (availabilityWhere unitId startDate endDate)
                                  (bookings w)) =? 0)%nat eqn:En;
      [| reflexivity].
    exfalso. apply (proj1 Hnil); [reflexivity |]. apply Hconf. reflexivity.
  - assert (Hn : (List.length (filter (availabilityWhere unitId startDate endDate)
                                      (bookings w)) =? 0)%nat = true).
    { apply Hnil. intros Hex. apply Hconf in Hex. discriminate. }
    rewrite Hn. split; [discriminate |].
    destruct (BookingValidators.validate _ _ _ _ _).
    + destruct E as [[body Hb] _]. rewrite Hb.
      intros [H | H]; discriminate.
    + rewrite E. cbn [fst]. intros [H | H]; discriminate.
Qed.

Lemma availability_agrees_with_admission_witness :
  let u := StorageUnit.mk 1 "Medium Storage Unit B2" "10x10 ft" "Downtown" 25
             true None in
  let b := Booking.mk 1 "Test User" 1 1709251200000 1710460800000 375
             upcoming 1709200000001 in
  let w := mkWorld [u] [b] 2 (fun n => 1709200000010 + Z.of_nat n) 0 in
  lookup_unit w 1 = Some u /\ 1709856000000 < 1711065600000 /\ well_ordered w
  /\ exists answer,
       fst (checkAvailability 1 1709856000000 1711065600000 w)
       = Success 200 answer
       /\ available answer = false
       /\ fst (createBooking "Other User" 1 1709856000000 1711065600000 w)
          = Failure Conflict.
Proof.
  intros u b w.
  assert (Hu : lookup_unit w 1 = Some u) by reflexivity.
  assert (Hse : 1709856000000 < 1711065600000) by lia.
  assert (Hwo : well_ordered w).
  { intros x [<- | []]. cbn. lia. }
  repeat (split; [assumption |]).
  eexists. split; [reflexivity |].
  assert (Hc : fst (createBooking "Other User" 1 1709856000000 1711065600000 w)
               = Failure Conflict) by reflexivity.
  split; [| exact Hc].
  apply (availability_agrees_with_admission "Other User" 1 1709856000000
           1711065600000 w u _ Hu Hse Hwo eq_refl).
  right. exact Hc.
Defined.
